(** * api-l3x-in: the AWS helpers and the public API handlers

    A shallow embedding of [lib/utils/aws.py] and of
    [lib/stacks/api/api/main.py].  Python functions become functions in a
    state-and-exception monad over an abstract [World] (the remote AWS
    services and the clock); every boto3 call is recorded in a trace, so that
    the number, the order and the arguments of the network calls can be
    stated.  Python's standard library ([json], [str]) and boto3 are
    interfaces (type classes); the repository's code is written out. *)

From Stdlib Require Import ZArith Floats String Ascii List Bool Lia.
From Stdlib Require Import DecimalString.
Import ListNotations.

Open Scope string_scope.
Open Scope Z_scope.

(** ** Python values *)

Set Warnings "-register-all".

(** The JSON-like fragment of Python objects the handlers exchange: every
    such value is accepted by [json.dumps].  A [dict] keeps insertion order
    and has [str] keys. *)
Inductive value : Type :=
| VNone
| VBool (b : bool)
| VInt (z : Z)
| VFloat (f : float)
| VStr (s : string)
| VList (l : list value)
| VDict (d : list (string * value)).

Definition dict : Type := list (string * value).

(** [d[k]] read: the first binding of [k]. *)
Fixpoint dict_get (k : string) (d : dict) : option value :=
  match d with
  | [] => None
  | (k', v) :: d' => if String.eqb k k' then Some v else dict_get k d'
  end.

(** [d[k] = v]: an existing key keeps its position, a new one goes last. *)
Fixpoint dict_set (k : string) (v : value) (d : dict) : dict :=
  match d with
  | [] => [(k, v)]
  | (k', v') :: d' =>
      if String.eqb k k' then (k, v) :: d' else (k', v') :: dict_set k v d'
  end.

(** Truth value of a mapping: [if message:]. *)
Definition dict_truthy (d : dict) : bool :=
  match d with [] => false | _ :: _ => true end.

(** Truth value of a variable that holds [None] or a [str]. *)
Definition str_truthy (s : option string) : bool :=
  match s with
  | None => false
  | Some "" => false
  | Some _ => true
  end.

(** [x in (a, b, ...)] on strings. *)
Fixpoint str_in (x : string) (l : list string) : bool :=
  match l with
  | [] => false
  | y :: l' => String.eqb x y || str_in x l'
  end.

(** ** String methods *)

(** [s.split(sep)] for a one-character separator: never the empty list. *)
Fixpoint split (sep : ascii) (s : string) : list string :=
  match s with
  | EmptyString => [EmptyString]
  | String c s' =>
      if Ascii.eqb c sep then EmptyString :: split sep s'
      else match split sep s' with
           | [] => [String c EmptyString]
           | h :: t => String c h :: t
           end
  end.

Definition is_space (c : ascii) : bool := Ascii.eqb c " "%char.

Fixpoint lstrip (s : string) : string :=
  match s with
  | EmptyString => EmptyString
  | String c s' => if is_space c then lstrip s' else s
  end.

Fixpoint rstrip (s : string) : string :=
  match s with
  | EmptyString => EmptyString
  | String c s' =>
      match rstrip s' with
      | EmptyString => if is_space c then EmptyString else String c EmptyString
      | r => String c r
      end
  end.

(** [s.strip(" ")]: only the space character is removed, on both ends. *)
Definition strip (s : string) : string := lstrip (rstrip s).

(** ** Exceptions and outcomes *)

(** The exceptions of Python and of boto3.  A [ClientError] carries
    [error.response["Error"]["Code"]], [error.response["Error"]["Message"]]
    and [str(error)]. *)
Inductive fault : Type :=
| ClientError (Code Message text : string)
| KeyError (key : string)
| TypeError (text : string)
| ValueError (text : string)
| OverflowError (text : string)
| JSONDecodeError (text : string)
| OtherError (text : string).

(** What a function of the repository can raise: its own [HandledError],
    with the [status_code] argument as the raise site wrote it ([None] when
    the site passes no status), the [SystemExit] of a hard exit, or a fault
    of the libraries. *)
Inductive exn : Type :=
| HandledError (message : value) (status_code : option Z)
| SystemExit (code : string)
| Fault (f : fault).

Coercion Fault : fault >-> exn.

(** The result of a library function. *)
Inductive result (A : Type) : Type :=
| Ok (a : A)
| Error (f : fault).

Arguments Ok {A} a.
Arguments Error {A} f.

(** The outcome of a function of the repository. *)
Inductive outcome (A : Type) : Type :=
| Return (a : A)
| Raise (e : exn).

Arguments Return {A} a.
Arguments Raise {A} e.

(** [int(x)] of a float: truncation toward zero; [nan] and the infinities
    raise. *)
Definition int_of_float (x : float) : result Z :=
  match Prim2SF x with
  | S754_zero _ => Ok 0
  | S754_finite s m e =>
      let mag := match e with
                 | Z0 => Zpos m
                 | Zpos p => Z.shiftl (Zpos m) (Zpos p)
                 | Zneg p => Z.shiftr (Zpos m) (Zpos p)
                 end in
      Ok (if s then - mag else mag)
  | S754_infinity _ => Error (OverflowError "cannot convert float infinity to integer")
  | S754_nan => Error (ValueError "cannot convert float NaN to integer")
  end.

(** ** The remote services *)

Record LogEvent : Type := mkLogEvent {
  timestamp : Z;
  message : string
}.

(** What [s3.get_object] answers: the content behind the [Body] stream. *)
Record GetObjectOutput : Type := mkGetObjectOutput {
  Body : list Byte.byte
}.

(** What [lambda_client.invoke] answers: the HTTP status and the content of
    the [Payload] stream. *)
Record InvokeOutput : Type := mkInvokeOutput {
  StatusCode : Z;
  Payload : string
}.

(** One boto3 request, with its keyword arguments. *)
Inductive call : Type :=
| lambda_invoke (FunctionName InvocationType Payload : string)
| sns_publish (TopicArn Message Subject : string)
| logs_put_log_events (logGroupName logStreamName : string)
    (logEvents : list LogEvent) (sequenceToken : option string)
| logs_get_log_events (logGroupName logStreamName : string)
| logs_describe_log_streams (logGroupName : string)
| s3_get_object (Bucket Key : string)
| dynamodb_scan (TableName : string).

(** A request together with the exception it ended in, if any. *)
Record exchange : Type := mkExchange {
  request : call;
  raised : option fault
}.

(** The world outside the process.  Each operation answers (or raises) and
    moves the world on.  [time] is [time.time()]; the law says that the clock
    is a finite number of seconds whose milliseconds are still finite. *)
Class Boto3 (World : Type) : Type := {
  time : World -> float * World;
  invoke : string -> string -> string -> World -> result InvokeOutput * World;
  publish : string -> string -> string -> World -> result dict * World;
  put_log_events :
    string -> string -> list LogEvent -> option string -> World ->
    result unit * World;
  get_log_events : string -> string -> World -> result dict * World;
  describe_log_streams : string -> World -> result dict * World;
  get_object : string -> string -> World -> result GetObjectOutput * World;
  scan : string -> World -> result dict * World;
  time_finite :
    forall w, exists ms, int_of_float (fst (time w) * 1000)%float = Ok ms
}.

(** Python's standard library, as far as the handlers use it. *)
Class Python : Type := {
  json_dumps : value -> string;
  json_loads : string -> result value;
  (** [str(x)] of an object that is not a [str] *)
  py_str : value -> string;
  (** [str(lambda_resp)] *)
  str_of_invoke_output : InvokeOutput -> string;
  (** [float(x)] *)
  py_float : value -> result float
}.

(** The class [utils.Response] lives in [utils/__init__.py], outside the two
    modules embedded here: it is a parameter, with its constructor, its [put]
    method and its [text] attribute. *)
Class Utils : Type := {
  Response : Type;
  Response_new : Response;
  Response_put : value -> Response -> Response;
  Response_text : Response -> value
}.

(** ** The monad *)

Section Monad.
Context {World : Type}.

Record state : Type := mkState {
  world : World;
  trace : list exchange
}.

Definition M (A : Type) : Type := state -> outcome A * state.

Definition ret {A} (a : A) : M A := fun s => (Return a, s).

Definition raise {A} (e : exn) : M A := fun s => (Raise e, s).

Definition bind {A B} (m : M A) (k : A -> M B) : M B :=
  fun s =>
    match m s with
    | (Return a, s') => k a s'
    | (Raise e, s') => (Raise e, s')
    end.

(** [try: m except: h] where [h] decides per exception. *)
Definition try_except {A} (m : M A) (h : exn -> M A) : M A :=
  fun s =>
    match m s with
    | (Return a, s') => (Return a, s')
    | (Raise e, s') => h e s'
    end.

Definition outcome_of {A} (r : result A) : outcome A :=
  match r with
  | Ok a => Return a
  | Error f => Raise (Fault f)
  end.

Definition lift {A} (r : result A) : M A := fun s => (outcome_of r, s).

Definition raised_of {A} (r : result A) : option fault :=
  match r with
  | Ok _ => None
  | Error f => Some f
  end.

(** A boto3 call: the world answers, the exchange goes to the trace. *)
Definition perform {A} (c : call) (f : World -> result A * World) : M A :=
  fun s =>
    let (r, w') := f (world s) in
    (outcome_of r,
     {| world := w';
        trace := trace s ++ [{| request := c; raised := raised_of r |}] |}).

(** A read of the clock: no network call. *)
Definition read_clock (f : World -> float * World) : M float :=
  fun s =>
    let (t, w') := f (world s) in
    (Return t, {| world := w'; trace := trace s |}).

Definition start (w : World) : state := {| world := w; trace := [] |}.
End Monad.

Arguments state World : clear implicits.
Arguments M World A : clear implicits.

Notation "x <- m ;; k" := (bind m (fun x => k))
(at level 61, m at next level, right associativity).

(** ** lib/utils/aws.py *)

Section Aws.
Context {World : Type} `{Boto3 World} `{Python} `{Utils}.

(** [invoke_lambda]: trigger AWS Lambda execution. *)
Definition invoke_lambda (name : string) (payload : value)
    (invoke_type : string) : M World Response :=
  if negb (str_in invoke_type ["DryRun"; "RequestResponse"; "Event"]) then
    raise (HandledError (VStr ("invalid invoke_type: " ++ invoke_type))
                        (Some 400))
  else
    let response := Response_new in
    lambda_resp <-
      perform (lambda_invoke name invoke_type (json_dumps payload))
              (invoke name invoke_type (json_dumps payload)) ;;
    response <-
      (if str_in invoke_type ["DryRun"; "RequestResponse"] then
         lambda_payload <- lift (json_loads (Payload lambda_resp)) ;;
         ret (Response_put lambda_payload response)
       else ret response) ;;
    if negb ((200 <=? StatusCode lambda_resp)
             && (StatusCode lambda_resp <? 300)) then
      raise (HandledError
               (VStr ("lambda response: " ++ str_of_invoke_output lambda_resp))
               (Some (StatusCode lambda_resp)))
    else ret response.

(** [publish_to_sns_topic]: returns the SNS MessageId; a missing MessageId
    is a hard exit. *)
Definition publish_to_sns_topic (sns_topic subject : string)
    (content : value) : M World Response :=
  sns_response <-
    perform (sns_publish sns_topic (json_dumps content) subject)
            (publish sns_topic (json_dumps content) subject) ;;
  match dict_get "MessageId" sns_response with
  | Some message_id => ret (Response_put message_id Response_new)
  | None => raise (SystemExit "Missing MessageId in SNS response")
  end.

(** The two error codes on which the writer fetches a token and retries. *)
Definition is_conflict (code : string) : bool :=
  str_in code ["DataAlreadyAcceptedException"; "InvalidSequenceTokenException"].

(** [error.response["Error"]["Message"].split(":")[-1].strip(" ")] *)
Definition token_of_message (msg : string) : string :=
  strip (last (split ":"%char msg) EmptyString).

(** The keyword argument of [put_log_events]: [sequenceToken] is passed only
    when [sequence_token] is true (neither [None] nor empty). *)
Definition token_argument (sequence_token : option string) : option string :=
  if str_truthy sequence_token then sequence_token else None.

(** The [while (not done) and retrials > 0] loop.  [retrials] only decreases,
    by one for each conflict, so it is the structural argument; a loop that is
    entered with no retrial left falls through and the function returns
    [None]. *)
Fixpoint put_loop (log_group log_stream : string) (event : LogEvent)
    (sequence_token : option string) (retrials : nat) : M World (option string) :=
  match retrials with
  | O => ret None
  | S retrials' =>
      try_except
        (_ <- perform
                (logs_put_log_events log_group log_stream [event]
                   (token_argument sequence_token))
                (put_log_events log_group log_stream [event]
                   (token_argument sequence_token)) ;;
         ret (Some ("Successfully delivered event content to CloudWatch LogGroup "
                    ++ log_group ++ " Stream " ++ log_stream)))
        (fun error =>
           match error with
           | Fault (ClientError code msg text) =>
               if is_conflict code then
                 let sequence_token := Some (token_of_message msg) in
                 match retrials' with
                 | S _ =>
                     put_loop log_group log_stream event sequence_token retrials'
                 | O =>
                     raise (HandledError
                              (VStr ("Failed sending event content to CloudWatch Logs "
                                     ++ "after 3 retrials"))
                              (Some 500))
                 end
               else
                 raise (HandledError
                          (VStr ("Unexpected response from boto client: " ++ text))
                          (Some 500))
           | _ => raise error
           end)
  end.

(** [send_event_to_logstream] *)
Definition send_event_to_logstream (log_group log_stream : string)
    (message : dict) : M World (option string) :=
  let sequence_token : option string := None in
  let retrials := 3%nat in
  if dict_truthy message then
    now <- read_clock time ;;
    timestamp <- lift (int_of_float (now * 1000)%float) ;;
    let event := {| timestamp := timestamp;
                    message := json_dumps (VDict message) |} in
    put_loop log_group log_stream event sequence_token retrials
  else
    raise (HandledError (VStr "No content to send to Log Stream, aborting")
                        (Some 500)).

(** [read_log_stream]: all events of a log stream. *)
Definition read_log_stream (log_group log_stream : string) : M World value :=
  resp <- perform (logs_get_log_events log_group log_stream)
                  (get_log_events log_group log_stream) ;;
  match dict_get "events" resp with
  | Some events => ret events
  | None => raise (Fault (KeyError "events"))
  end.

(** [stream["logStreamName"] for stream in resp["logStreams"]]; the names are
    strings, as the service sends them. *)
Fixpoint stream_names (streams : list value) : result (list string) :=
  match streams with
  | [] => Ok []
  | VDict stream :: rest =>
      match dict_get "logStreamName" stream with
      | Some (VStr name) =>
          match stream_names rest with
          | Ok names => Ok (name :: names)
          | Error e => Error e
          end
      | Some _ => Error (TypeError "logStreamName is not a str")
      | None => Error (KeyError "logStreamName")
      end
  | _ :: _ => Error (TypeError "stream is not subscriptable by str")
  end.

(** The dict comprehension of [read_all_log_streams]. *)
Fixpoint read_streams (log_group : string) (streams : list string)
    (acc : dict) : M World dict :=
  match streams with
  | [] => ret acc
  | stream :: rest =>
      events <- read_log_stream log_group stream ;;
      read_streams log_group rest (dict_set stream events acc)
  end.

(** [read_all_log_streams] *)
Definition read_all_log_streams (log_group : string) : M World value :=
  resp <- perform (logs_describe_log_streams log_group)
                  (describe_log_streams log_group) ;;
  match dict_get "logStreams" resp with
  | Some (VList streams) =>
      names <- lift (stream_names streams) ;;
      d <- read_streams log_group names [] ;;
      ret (VDict d)
  | Some _ => raise (Fault (TypeError "logStreams is not a list"))
  | None => raise (Fault (KeyError "logStreams"))
  end.

(** [get_object_from_s3_bucket] *)
Definition get_object_from_s3_bucket (key bucket : string)
    : M World (list Byte.byte) :=
  try_except
    (response <- perform (s3_get_object bucket key) (get_object bucket key) ;;
     ret (Body response))
    (fun error =>
       match error with
       | Fault (ClientError code _ _) =>
           if String.eqb code "NoSuchKey" then
             raise (HandledError
                      (VStr ("Key " ++ key ++ " not found in bucket " ++ bucket))
                      (Some 404))
           else raise error
       | _ => raise error
       end).

(** [scan_dynamodb_table] is called by the API handlers; this revision of
    [aws.py] does not define it, so it is the [scan] operation of the
    interface. *)
Definition scan_dynamodb_table (table : string) : M World dict :=
  perform (dynamodb_scan table) (scan table).

End Aws.

(** ** lib/stacks/api/api/main.py *)

(** The inbound event: verb, path and raw body ([None] for a null body). *)
Record LambdaEvent : Type := mkLambdaEvent {
  verb : string;
  path : string;
  body : option string
}.

Definition newline : string := String (ascii_of_nat 10) EmptyString.

(** [format(v, "")] inside [str.format]: a [str] is taken as it is, any other
    object through its [str()]. *)
Definition format_field `{Python} (v : value) : string :=
  match v with
  | VStr s => s
  | _ => py_str v
  end.

(** [str(KeyError(k))] is the [repr] of the key; the keys that can be
    missing here are plain identifiers, quoted with single quotes. *)
Definition str_of_KeyError (k : string) : string := "'" ++ k ++ "'".

(** The template of [contact] applied to [**loaded]: the fields are looked
    up from left to right, the first missing one raises. *)
Definition contact_message `{Python} (loaded : value) : result string :=
  match loaded with
  | VDict d =>
      match dict_get "source" d with
      | None => Error (KeyError "source")
      | Some source =>
      match dict_get "name" d with
      | None => Error (KeyError "name")
      | Some name =>
      match dict_get "email" d with
      | None => Error (KeyError "email")
      | Some email =>
      match dict_get "description" d with
      | None => Error (KeyError "description")
      | Some description =>
          Ok ("Source: " ++ format_field source ++ newline
                  ++ "Name: " ++ format_field name ++ newline
                  ++ "Mail: " ++ format_field email ++ newline
                  ++ "Desc: " ++ format_field description ++ newline)
      end end end end
  | _ => Error (TypeError "format() argument after ** must be a mapping")
  end.

(** [json.loads(body)]: a [None] body is a [TypeError]. *)
Definition loads_body `{Python} (body : option string) : result value :=
  match body with
  | Some text => json_loads text
  | None =>
      Error (TypeError
               "the JSON object must be str, bytes or bytearray, not NoneType")
  end.

(** [x == 0] *)
Definition eq_zero (x : value) : bool :=
  match x with
  | VInt z => z =? 0
  | VBool b => negb b
  | VFloat f => (f =? 0)%float
  | _ => false
  end.

(** [x[k]] for a string key. *)
Definition getitem (x : value) (k : string) : result value :=
  match x with
  | VDict d =>
      match dict_get k d with
      | Some v => Ok v
      | None => Error (KeyError k)
      end
  | _ => Error (TypeError "object is not subscriptable by str")
  end.

Set Warnings "-inexact-float".

(** [0.99 < score <= 1] *)
Definition score_in_range (score : float) : bool :=
  ((0.99 <? score) && (score <=? 1))%float.

(** One element of the report: the three attributes of a table item. *)
Definition report_item `{Python} (item : value) : result dict :=
  match getitem item "url" with
  | Error e => Error e
  | Ok url =>
  match getitem url "S" with
  | Error e => Error e
  | Ok url_s =>
  match getitem item "latest_score_value" with
  | Error e => Error e
  | Ok score =>
  match getitem score "N" with
  | Error e => Error e
  | Ok score_n =>
  match py_float score_n with
  | Error e => Error e
  | Ok score_f =>
  match getitem item "latest_score_timestamp" with
  | Error e => Error e
  | Ok ts =>
  match getitem ts "S" with
  | Error e => Error e
  | Ok ts_s =>
      Ok [("url", url_s);
              ("latest_score_value", VFloat score_f);
              ("latest_score_timestamp", ts_s)]
  end end end end end end end.

Fixpoint report_items `{Python} (items : list value) : result (list dict) :=
  match items with
  | [] => Ok []
  | item :: rest =>
      match report_item item with
      | Error e => Error e
      | Ok d =>
          match report_items rest with
          | Error e => Error e
          | Ok ds => Ok (d :: ds)
          end
      end
  end.

(** The marking loop: an item out of range gets [error = True]; the result
    is the marked items and the [errors] flag. *)
Fixpoint mark_errors (items : list dict) : list dict * bool :=
  match items with
  | [] => ([], false)
  | item :: rest =>
      let (rest', errors) := mark_errors rest in
      match dict_get "latest_score_value" item with
      | Some (VFloat score) =>
          if score_in_range score then (item :: rest', errors)
          else (dict_set "error" (VBool true) item :: rest', true)
      | _ => (item :: rest', errors)
      end
  end.

Section Api.
Context {World : Type} `{Boto3 World} `{Python} `{Utils}.

(** The process environment, [os.environ]. *)
Variable environ : list (string * string).

Fixpoint env_get (k : string) (e : list (string * string)) : result string :=
  match e with
  | [] => Error (KeyError k)
  | (k', v) :: e' => if String.eqb k k' then Ok v else env_get k e'
  end.

(** [social_report]: all events of the REPORT_LOG_GROUP_NAME group. *)
Definition social_report (event : LambdaEvent) : M World value :=
  log_group_name <- lift (env_get "REPORT_LOG_GROUP_NAME" environ) ;;
  read_all_log_streams log_group_name.

(** The [try] block of [contact]: the body is loaded, the message is
    formatted and the faults of both are turned into Structured Failures,
    raised without a status code. *)
Definition contact_try (body : option string) : M World string :=
  try_except
    (loaded <- lift (loads_body body) ;;
     lift (contact_message loaded))
    (fun error =>
       match error with
       | Fault (TypeError text) | Fault (JSONDecodeError text) =>
           raise (HandledError
                    (VStr ("JSON body is malformatted: " ++ text)) None)
       | Fault (KeyError k) =>
           raise (HandledError
                    (VStr ("Missing JSON key: " ++ str_of_KeyError k)) None)
       | _ => raise error
       end).

(** [contact]: send the event payload to the notifications lambda. *)
Definition contact (event : LambdaEvent) : M World value :=
  lambda_notifications <- lift (env_get "LAMBDA_NOTIFICATIONS" environ) ;;
  let body := body event in
  msg <- contact_try body ;;
  response <-
    invoke_lambda lambda_notifications
      (VDict [("title", VStr "New /contact submission received");
              ("payload", VStr msg)])
      "RequestResponse" ;;
  ret (Response_text response).

(** [pagespeed_report]: the report of the Pagespeed table. *)
Definition pagespeed_report (event : LambdaEvent) : M World value :=
  table <- lift (env_get "PAGESPEED_TABLE" environ) ;;
  data <- scan_dynamodb_table table ;;
  count <- lift (getitem (VDict data) "Count") ;;
  if eq_zero count then
    raise (HandledError (VStr "Unexpected DynamoDB response: empty table")
                        (Some 500))
  else
    rows <- lift (getitem (VDict data) "Items") ;;
    match rows with
    | VList rows =>
        items <- lift (report_items rows) ;;
        let (items, errors) := mark_errors items in
        if errors then
          raise (HandledError (VList (map VDict items)) (Some 400))
        else ret (VList (map VDict items))
    | _ => raise (Fault (TypeError "Items is not iterable as a list"))
    end.

(** The [router_map] of [handler]. *)
Definition router_map : list (string * (LambdaEvent -> M World value)) :=
  [("GET /pagespeed_report", pagespeed_report);
   ("GET /robots.txt",
    fun _ => ret (VStr ("User-agent: *" ++ newline ++ "Disallow: /")));
   ("GET /social_report", social_report);
   ("POST /contact", contact)].

End Api.

(** ** The router *)

(** Modelled from the spec: the response envelope of section 4.1, which
    [utils.handlers] (not among the embedded modules) builds.  It carries a
    success payload or an error payload, and always a status. *)
Record Envelope : Type := mkEnvelope {
  payload : option value;
  error_payload : option value;
  status : Z
}.

(** Modelled from the spec: [success(value)] of section 4.1. *)
Definition success (v : value) : Envelope :=
  {| payload := Some v; error_payload := None; status := 200 |}.

(** Modelled from the spec: the status of a Structured Failure raised
    without one is 400 (section 4.2; the class [utils.HandledError] itself is
    outside the embedded modules). *)
Definition default_status_code : Z := 400.

(** Modelled from the spec: [failure(structured)] of section 4.1. *)
Definition failure (msg : value) (status_code : option Z) : Envelope :=
  {| payload := None;
     error_payload := Some msg;
     status := match status_code with
               | Some code => code
               | None => default_status_code
               end |}.

(** Modelled from the spec: [failure_unexpected(fault)] of section 4.1. *)
Definition failure_unexpected : Envelope :=
  {| payload := None;
     error_payload := Some (VStr "internal error");
     status := 500 |}.

Section Router.
Context {World : Type} `{Boto3 World} `{Python} `{Utils}.

Definition Handler : Type := LambdaEvent -> M World value.

(** Exact match of the route key. *)
Fixpoint lookup_route (key : string) (registry : list (string * Handler))
    : option Handler :=
  match registry with
  | [] => None
  | (k, h) :: registry' =>
      if String.eqb key k then Some h else lookup_route key registry'
  end.

(** Modelled from the spec: [dispatch] of section 4.3, the work of
    [handlers.ApiGatewayEventHandler].  The route key is ["VERB PATH"]; an
    unknown route is a 404; a return value is wrapped by [success], a
    Structured Failure by [failure], any other fault by
    [failure_unexpected]; the process-terminating signal of section 7 is
    not converted. *)
Definition dispatch (registry : list (string * Handler))
    (event : LambdaEvent) : M World Envelope :=
  let key := verb event ++ " " ++ path event in
  match lookup_route key registry with
  | None => ret (failure (VStr "route not found") (Some 404))
  | Some h =>
      try_except
        (v <- h event ;; ret (success v))
        (fun fault =>
           match fault with
           | HandledError msg status_code => ret (failure msg status_code)
           | SystemExit code => raise (SystemExit code)
           | _ => ret failure_unexpected
           end)
  end.

(** [handler]: the Lambda entry point of the public API. *)
Definition handler (environ : list (string * string))
    (event : LambdaEvent) : M World Envelope :=
  dispatch (router_map environ) event.

End Router.

(** ** Test doubles

    Concrete instances of the three interfaces, to run the handlers on
    examples: a scripted world, a reader and writer for the fragment of JSON
    without fractions, exponents and unicode escapes, and a [Response] that
    stores what is [put]. *)

Module Double.

Definition dquote : ascii := ascii_of_nat 34.
Definition backslash : ascii := ascii_of_nat 92.

Definition is_ws (c : ascii) : bool :=
  match nat_of_ascii c with
  | 32%nat | 9%nat | 10%nat | 13%nat => true
  | _ => false
  end.

Fixpoint skip_ws (s : string) : string :=
  match s with
  | EmptyString => EmptyString
  | String c s' => if is_ws c then skip_ws s' else s
  end.

Definition unescape (c : ascii) : option ascii :=
  match nat_of_ascii c with
  | 34%nat => Some dquote
  | 92%nat => Some backslash
  | 47%nat => Some "/"%char
  | 110%nat => Some (ascii_of_nat 10)
  | 116%nat => Some (ascii_of_nat 9)
  | 114%nat => Some (ascii_of_nat 13)
  | _ => None
  end.

(** The characters of a string literal, after its opening quote. *)
Fixpoint read_string (s : string) : option (string * string) :=
  match s with
  | EmptyString => None
  | String c s' =>
      if Ascii.eqb c dquote then Some (EmptyString, s')
      else if Ascii.eqb c backslash then
        match s' with
        | EmptyString => None
        | String e s'' =>
            match unescape e, read_string s'' with
            | Some ch, Some (r, rest) => Some (String ch r, rest)
            | _, _ => None
            end
        end
      else
        match read_string s' with
        | Some (r, rest) => Some (String c r, rest)
        | None => None
        end
  end.

Definition digit_of (c : ascii) : option Z :=
  let n := nat_of_ascii c in
  if ((48 <=? n) && (n <=? 57))%nat then Some (Z.of_nat n - 48) else None.

Fixpoint read_digits (s : string) (acc : Z) : Z * string :=
  match s with
  | EmptyString => (acc, s)
  | String c s' =>
      match digit_of c with
      | Some d => read_digits s' (10 * acc + d)
      | None => (acc, s)
      end
  end.

(** [s] without the prefix [p], when it starts with it. *)
Fixpoint drop_prefix (p s : string) : option string :=
  match p, s with
  | EmptyString, _ => Some s
  | String a p', String b s' =>
      if Ascii.eqb a b then drop_prefix p' s' else None
  | _, _ => None
  end.

Definition read_literal (s : string) : option (value * string) :=
  match drop_prefix "null" s, drop_prefix "true" s, drop_prefix "false" s with
  | Some r, _, _ => Some (VNone, r)
  | _, Some r, _ => Some (VBool true, r)
  | _, _, Some r => Some (VBool false, r)
  | _, _, _ => None
  end.

Definition read_number (s : string) : option (value * string) :=
  let (neg, s1) := match drop_prefix "-" s with
                   | Some r => (true, r)
                   | None => (false, s)
                   end in
  match s1 with
  | String c _ =>
      match digit_of c with
      | Some _ =>
          let (n, rest) := read_digits s1 0 in
          Some (VInt (if neg then - n else n), rest)
      | None => None
      end
  | EmptyString => None
  end.

(** A value, the elements of an array after its bracket and the members of
    an object after its brace; [fuel] bounds the number of nested reads (two
    reads consume at least one character). *)
Fixpoint read_value (fuel : nat) (s : string) {struct fuel}
    : option (value * string) :=
  match fuel with
  | O => None
  | S fuel' =>
      match skip_ws s with
      | EmptyString => None
      | String c rest =>
          if Ascii.eqb c dquote then
            match read_string rest with
            | Some (r, rest') => Some (VStr r, rest')
            | None => None
            end
          else if Ascii.eqb c "["%char then
            match skip_ws rest with
            | String c' rest' =>
                if Ascii.eqb c' "]"%char then Some (VList [], rest')
                else match read_elements fuel' rest with
                     | Some (l, r) => Some (VList l, r)
                     | None => None
                     end
            | EmptyString => None
            end
          else if Ascii.eqb c "{"%char then
            match skip_ws rest with
            | String c' rest' =>
                if Ascii.eqb c' "}"%char then Some (VDict [], rest')
                else match read_members fuel' rest [] with
                     | Some (d, r) => Some (VDict d, r)
                     | None => None
                     end
            | EmptyString => None
            end
          else
            match read_literal (String c rest) with
            | Some r => Some r
            | None => read_number (String c rest)
            end
      end
  end
with read_elements (fuel : nat) (s : string) {struct fuel}
    : option (list value * string) :=
  match fuel with
  | O => None
  | S fuel' =>
      match read_value fuel' s with
      | None => None
      | Some (v, r) =>
          match skip_ws r with
          | String c r' =>
              if Ascii.eqb c ","%char then
                match read_elements fuel' r' with
                | Some (l, r'') => Some (v :: l, r'')
                | None => None
                end
              else if Ascii.eqb c "]"%char then Some ([v], r')
              else None
          | EmptyString => None
          end
      end
  end
with read_members (fuel : nat) (s : string) (acc : dict) {struct fuel}
    : option (dict * string) :=
  match fuel with
  | O => None
  | S fuel' =>
      match skip_ws s with
      | String q r0 =>
          if Ascii.eqb q dquote then
            match read_string r0 with
            | None => None
            | Some (k, r1) =>
                match skip_ws r1 with
                | String c r2 =>
                    if Ascii.eqb c ":"%char then
                      match read_value fuel' r2 with
                      | None => None
                      | Some (v, r3) =>
                          match skip_ws r3 with
                          | String c' r4 =>
                              if Ascii.eqb c' ","%char then
                                read_members fuel' r4 (dict_set k v acc)
                              else if Ascii.eqb c' "}"%char then
                                Some (dict_set k v acc, r4)
                              else None
                          | EmptyString => None
                          end
                      end
                    else None
                | EmptyString => None
                end
            end
          else None
      | EmptyString => None
      end
  end.

(** [json.loads] of the double. *)
Definition loads (s : string) : result value :=
  match read_value (2 * String.length s + 2) s with
  | Some (v, rest) =>
      match skip_ws rest with
      | EmptyString => Ok v
      | String _ _ => Error (JSONDecodeError "Extra data")
      end
  | None => Error (JSONDecodeError "Expecting value")
  end.

Definition decimal (z : Z) : string :=
  DecimalString.NilZero.string_of_int (Z.to_int z).

Fixpoint escape (s : string) : string :=
  match s with
  | EmptyString => EmptyString
  | String c s' =>
      match nat_of_ascii c with
      | 34%nat => String backslash (String dquote (escape s'))
      | 92%nat => String backslash (String backslash (escape s'))
      | 10%nat => String backslash (String "n"%char (escape s'))
      | _ => String c (escape s')
      end
  end.

Definition quoted (s : string) : string :=
  String dquote (escape s) ++ String dquote EmptyString.

(** [json.dumps] of the double, with Python's separators; a float is
    outside its fragment and is written as [NaN]. *)
Fixpoint dumps (v : value) : string :=
  match v with
  | VNone => "null"
  | VBool true => "true"
  | VBool false => "false"
  | VInt z => decimal z
  | VFloat _ => "NaN"
  | VStr s => quoted s
  | VList l =>
      "[" ++ (fix elements (l : list value) : string :=
                match l with
                | [] => EmptyString
                | [x] => dumps x
                | x :: l' => dumps x ++ ", " ++ elements l'
                end) l ++ "]"
  | VDict d =>
      "{" ++ (fix members (d : list (string * value)) : string :=
                match d with
                | [] => EmptyString
                | [(k, x)] => quoted k ++ ": " ++ dumps x
                | (k, x) :: d' => quoted k ++ ": " ++ dumps x ++ ", " ++ members d'
                end) d ++ "}"
  end.

(** [str()] of the double: Python's spelling of the constants, the JSON
    text for the rest.  [float()] of the double knows a float and the
    numerals of the examples. *)
Definition str (v : value) : string :=
  match v with
  | VNone => "None"
  | VBool true => "True"
  | VBool false => "False"
  | VStr s => s
  | _ => dumps v
  end.

Definition python : Python :=
  {| json_dumps := dumps;
     json_loads := loads;
     py_str := str;
     str_of_invoke_output := fun r =>
       "{'StatusCode': " ++ decimal (StatusCode r) ++ ", 'Payload': "
       ++ quoted (Payload r) ++ "}";
     py_float := fun v =>
       match v with
       | VFloat f => Ok f
       | VStr "1" => Ok 1%float
       | VStr "0.995" => Ok 0.995%float
       | VStr "0.5" => Ok 0.5%float
       | _ => Error (ValueError "could not convert to float")
       end |}.

(** A [Response] that stores the last value [put]; its [text] is that
    value ([None] before any [put]). *)
Definition utils : Utils :=
  {| Response := option value;
     Response_new := None;
     Response_put := fun v _ => Some v;
     Response_text := fun r => match r with Some v => v | None => VNone end |}.

(** A scripted world: every service answers with the next entry of its
    script, and with a connection error once the script is used up; the S3
    store is a table of objects.  Every operation, a clock read included,
    makes the clock tick. *)
Record World : Type := mkWorld {
  ticks : nat;
  put_script : list (result unit);
  invoke_script : list (result InvokeOutput);
  publish_script : list (result dict);
  objects : list (string * string * list Byte.byte)
}.

Definition tick (w : World) : World :=
  {| ticks := S (ticks w);
     put_script := put_script w;
     invoke_script := invoke_script w;
     publish_script := publish_script w;
     objects := objects w |}.

Definition clock (w : World) : float :=
  if Nat.even (ticks w) then 1604448000.25%float else 1604448001.5%float.

Definition unreachable {A} : result A :=
  Error (OtherError "EndpointConnectionError").

Definition next_put (w : World) : result unit * World :=
  match put_script w with
  | [] => (unreachable, tick w)
  | o :: script =>
      (o, {| ticks := S (ticks w);
             put_script := script;
             invoke_script := invoke_script w;
             publish_script := publish_script w;
             objects := objects w |})
  end.

Definition next_invoke (w : World) : result InvokeOutput * World :=
  match invoke_script w with
  | [] => (unreachable, tick w)
  | o :: script =>
      (o, {| ticks := S (ticks w);
             put_script := put_script w;
             invoke_script := script;
             publish_script := publish_script w;
             objects := objects w |})
  end.

Definition next_publish (w : World) : result dict * World :=
  match publish_script w with
  | [] => (unreachable, tick w)
  | o :: script =>
      (o, {| ticks := S (ticks w);
             put_script := put_script w;
             invoke_script := invoke_script w;
             publish_script := script;
             objects := objects w |})
  end.

Fixpoint find_object (bucket key : string)
    (store : list (string * string * list Byte.byte))
    : option (list Byte.byte) :=
  match store with
  | [] => None
  | (b, k, content) :: store' =>
      if String.eqb bucket b && String.eqb key k then Some content
      else find_object bucket key store'
  end.

Definition no_such_key : fault :=
  ClientError "NoSuchKey" "The specified key does not exist."
    ("An error occurred (NoSuchKey) when calling the GetObject operation: "
     ++ "The specified key does not exist.").

Definition fetch (bucket key : string) (w : World)
    : result GetObjectOutput * World :=
  match find_object bucket key (objects w) with
  | Some content => (Ok {| Body := content |}, tick w)
  | None => (Error no_such_key, tick w)
  end.

Lemma clock_finite (w : World) :
  exists ms, int_of_float (fst (clock w, tick w) * 1000)%float = Ok ms.
Proof.
  unfold clock; cbn [fst].
  destruct (Nat.even (ticks w)); eexists; vm_compute; reflexivity.
Qed.

Definition boto3 : Boto3 World :=
  {| time := fun w => (clock w, tick w);
     invoke := fun _ _ _ => next_invoke;
     publish := fun _ _ _ => next_publish;
     put_log_events := fun _ _ _ _ => next_put;
     get_log_events := fun _ _ w => (unreachable, tick w);
     describe_log_streams := fun _ w => (unreachable, tick w);
     get_object := fetch;
     scan := fun _ w => (unreachable, tick w);
     time_finite := clock_finite |}.

(** A conflict answer of CloudWatch Logs with the given message. *)
Definition conflict (code msg : string) : result unit :=
  Error (ClientError code msg
           ("An error occurred (" ++ code
            ++ ") when calling the PutLogEvents operation: " ++ msg)).

Definition world0 : World :=
  {| ticks := 0;
     put_script := [];
     invoke_script := [];
     publish_script := [];
     objects := [] |}.

End Double.

(** The handlers on the doubles. *)
Module OnDouble.

Definition send_event_to_logstream :=
  @send_event_to_logstream Double.World Double.boto3 Double.python.

Definition invoke_lambda :=
  @invoke_lambda Double.World Double.boto3 Double.python Double.utils.

Definition publish_to_sns_topic :=
  @publish_to_sns_topic Double.World Double.boto3 Double.python Double.utils.

Definition get_object_from_s3_bucket :=
  @get_object_from_s3_bucket Double.World Double.boto3.

Definition contact :=
  @contact Double.World Double.boto3 Double.python Double.utils.

Definition handler :=
  @handler Double.World Double.boto3 Double.python Double.utils.

End OnDouble.

(** ** Reading a trace *)

(** The [sequenceToken] argument of a request. *)
Definition sequence_token_of (c : call) : option string :=
  match c with
  | logs_put_log_events _ _ _ tok => tok
  | _ => None
  end.

(** The exchange is an append that failed with one of the two conflict
    codes. *)
Definition conflicted (x : exchange) : bool :=
  match raised x with
  | Some (ClientError code _ _) => is_conflict code
  | _ => false
  end.

(** The message field of the client error an exchange ended in. *)
Definition message_of (x : exchange) : string :=
  match raised x with
  | Some (ClientError _ msg _) => msg
  | _ => EmptyString
  end.

(** The outcome is not a Structured Failure, or it is one whose message and
    [status_code] argument satisfy [P]. *)
Definition raises {A} (o : outcome A) (P : value -> option Z -> Prop) : Prop :=
  match o with
  | Raise (HandledError msg status_code) => P msg status_code
  | _ => True
  end.

Fixpoint has_colon (s : string) : bool :=
  match s with
  | EmptyString => false
  | String c s' => Ascii.eqb c ":"%char || has_colon s'
  end.

(** The trailing segment of a text, in the words of the specification: what
    follows its last colon (all of it when it has no colon). *)
Fixpoint after_last_colon (s : string) : string :=
  match s with
  | EmptyString => EmptyString
  | String c s' =>
      if has_colon s' then after_last_colon s'
      else if Ascii.eqb c ":"%char then s' else s
  end.

(** Scripted worlds and inputs for the runs of the writer. *)
Module WriterRuns.
Import Double.

Definition invalid_token (token : string) : result unit :=
  conflict "InvalidSequenceTokenException"
    ("The given sequenceToken is invalid. The next expected sequenceToken is: "
     ++ token).

Definition with_puts (script : list (result unit)) : World :=
  {| ticks := 0;
     put_script := script;
     invoke_script := [];
     publish_script := [];
     objects := [] |}.

(** Four conflicts in a row, with the fresh tokens t1 to t4. *)
Definition four_conflicts : World :=
  with_puts [invalid_token "t1"; invalid_token "t2";
             invalid_token "t3"; invalid_token "t4"].

Definition note : dict := [("status", VStr "published")].

Definition record : LogEvent :=
  {| timestamp := 1604448000250;
     message := "{" ++ quoted "status" ++ ": " ++ quoted "published" ++ "}" |}.

Definition tokens (tr : list exchange) : list (option string) :=
  map (fun x => sequence_token_of (request x)) tr.

End WriterRuns.

(** Scripted worlds and inputs for the runs of the helpers and of the API. *)
Module HelperRuns.
Import Double.

Definition with_invokes (script : list (result InvokeOutput)) : World :=
  {| ticks := 0;
     put_script := [];
     invoke_script := script;
     publish_script := [];
     objects := [] |}.

Definition with_publishes (script : list (result dict)) : World :=
  {| ticks := 0;
     put_script := [];
     invoke_script := [];
     publish_script := script;
     objects := [] |}.

Definition with_objects (store : list (string * string * list Byte.byte))
    : World :=
  {| ticks := 0;
     put_script := [];
     invoke_script := [];
     publish_script := [];
     objects := store |}.

(** An acknowledgment of SNS without its MessageId. *)
Definition bare_ack : dict :=
  [("ResponseMetadata", VDict [("HTTPStatusCode", VInt 200)])].

Definition environ : list (string * string) :=
  [("LAMBDA_NOTIFICATIONS", "notifications-pushover")].

(** The body of the end-to-end scenario. *)
Definition contact_body : string :=
  "{" ++ quoted "source" ++ ":" ++ quoted "web" ++ ","
  ++ quoted "name" ++ ":" ++ quoted "A" ++ ","
  ++ quoted "email" ++ ":" ++ quoted "a@x.com" ++ ","
  ++ quoted "description" ++ ":" ++ quoted "hi" ++ "}".

Definition contact_event (text : option string) : LambdaEvent :=
  {| verb := "POST"; path := "/contact"; body := text |}.

Definition contact_request : string :=
  dumps (VDict [("title", VStr "New /contact submission received");
                ("payload",
                 VStr ("Source: web" ++ newline ++ "Name: A" ++ newline
                       ++ "Mail: a@x.com" ++ newline ++ "Desc: hi"
                       ++ newline))]).

End HelperRuns.

(** ** The runs of the retry loop

    The state machine of the writer, as a relation between the value of
    [sequence_token], the retrials left, the exchanges of the run and its
    outcome. *)

Section Attempts.
Variables (log_group log_stream : string) (event : LogEvent).

Definition attempt (sequence_token : option string) (f : option fault)
    : exchange :=
  {| request := logs_put_log_events log_group log_stream [event]
                  (token_argument sequence_token);
     raised := f |}.

Definition delivered : string :=
  "Successfully delivered event content to CloudWatch LogGroup "
  ++ log_group ++ " Stream " ++ log_stream.

Definition exhausted : exn :=
  HandledError
    (VStr "Failed sending event content to CloudWatch Logs after 3 retrials")
    (Some 500).

Definition unexpected (text : string) : exn :=
  HandledError (VStr ("Unexpected response from boto client: " ++ text))
               (Some 500).

Inductive attempts
    : option string -> nat -> list exchange -> outcome (option string) -> Prop :=
| attempts_skip tok :
    attempts tok 0 [] (Return None)
| attempts_done tok n :
    attempts tok (S n) [attempt tok None] (Return (Some delivered))
| attempts_retry tok n code msg text xs o :
    is_conflict code = true ->
    attempts (Some (token_of_message msg)) (S n) xs o ->
    attempts tok (S (S n))
      (attempt tok (Some (ClientError code msg text)) :: xs) o
| attempts_exhausted tok code msg text :
    is_conflict code = true ->
    attempts tok 1 [attempt tok (Some (ClientError code msg text))]
      (Raise exhausted)
| attempts_fatal tok n code msg text :
    is_conflict code = false ->
    attempts tok (S n) [attempt tok (Some (ClientError code msg text))]
      (Raise (unexpected text))
| attempts_fault tok n f :
    (forall code msg text, f <> ClientError code msg text) ->
    attempts tok (S n) [attempt tok (Some f)] (Raise (Fault f)).

End Attempts.

(** ** lib/stacks/publish_to_social/__init__.py *)

(** [s.replace(" ", "")] *)
Fixpoint remove_spaces (s : string) : string :=
  match s with
  | EmptyString => EmptyString
  | String c s' =>
      if is_space c then remove_spaces s' else String c (remove_spaces s')
  end.

(** Truth value of a [str]. *)
Definition nonempty (s : string) : bool :=
  match s with
  | EmptyString => false
  | String _ _ => true
  end.

(** [environ.get(k, "")] *)
Definition env_get_or_empty (k : string) (environ : list (string * string))
    : string :=
  match env_get k environ with
  | Ok v => v
  | Error _ => EmptyString
  end.

(** The list [social_lambdas] of [SocialPublishStack]: the names listed in
    LAMBDA_FUNCTIONS, separated by commas, spaces dropped, empty names
    skipped, each in lower case.  [lower] is Python's [str.lower]. *)
Definition social_lambdas (lower : string -> string)
    (environ : list (string * string)) : list string :=
  map lower
    (filter nonempty
       (split ","%char
          (remove_spaces (env_get_or_empty "LAMBDA_FUNCTIONS" environ)))).

(** ** More doubles and words for the statements *)

(** A world of canned answers, which never changes: the streams of the log
    group, the events of each stream and the scan of the table. *)
Module Canned.

Record World : Type := mkWorld {
  streams : result dict;
  events : string -> result dict;
  table : result dict
}.

Definition offline {A} : result A :=
  Error (OtherError "EndpointConnectionError").

Lemma fixed_clock_finite (w : World) :
  exists ms,
    int_of_float (fst (1604448000.25%float, w) * 1000)%float = Ok ms.
Proof. eexists. vm_compute. reflexivity. Qed.

Definition boto3 : Boto3 World :=
  {| time := fun w => (1604448000.25%float, w);
     invoke := fun _ _ _ w => (offline, w);
     publish := fun _ _ _ w => (offline, w);
     put_log_events := fun _ _ _ _ w => (offline, w);
     get_log_events := fun _ stream w => (events w stream, w);
     describe_log_streams := fun _ w => (streams w, w);
     get_object := fun _ _ w => (offline, w);
     scan := fun _ w => (table w, w);
     time_finite := fixed_clock_finite |}.

Definition read_all_log_streams :=
  @read_all_log_streams World boto3.

Definition pagespeed_report :=
  @pagespeed_report World boto3 Double.python.

(** A group with the streams twitter and mastodon. *)
Definition two_streams : World :=
  {| streams :=
       Ok [("logStreams",
            VList [VDict [("logStreamName", VStr "twitter")];
                   VDict [("logStreamName", VStr "mastodon")]])];
     events := fun stream =>
       Ok [("events", VList [VDict [("message", VStr stream)]])];
     table := offline |}.

(** The same group when the stream mastodon cannot be read. *)
Definition broken_stream : World :=
  {| streams := streams two_streams;
     events := fun stream =>
       if String.eqb stream "mastodon" then offline
       else events two_streams stream;
     table := offline |}.

Definition row (url score stamp : string) : value :=
  VDict [("url", VDict [("S", VStr url)]);
         ("latest_score_value", VDict [("N", VStr score)]);
         ("latest_score_timestamp", VDict [("S", VStr stamp)])].

(** A table of two pages, the second with a score of 0.5. *)
Definition two_pages : World :=
  {| streams := offline;
     events := fun _ => offline;
     table :=
       Ok [("Count", VInt 2);
           ("Items",
            VList [row "https://a.l3x.in/" "1" "2020-11-04";
                   row "https://a.l3x.in/slow" "0.5" "2020-11-04"])] |}.

Definition environ : list (string * string) :=
  [("PAGESPEED_TABLE", "pagespeed");
   ("LAMBDA_FUNCTIONS", " Twitter, Mastodon ,,linkedin")].

End Canned.

(** [str.lower] on ASCII text, for the runs. *)
Definition ascii_lower_char (c : ascii) : ascii :=
  let n := nat_of_ascii c in
  if ((65 <=? n) && (n <=? 90))%nat then ascii_of_nat (n + 32) else c.

Fixpoint ascii_lower (s : string) : string :=
  match s with
  | EmptyString => EmptyString
  | String c s' => String (ascii_lower_char c) (ascii_lower s')
  end.

Fixpoint has_char (c : ascii) (s : string) : bool :=
  match s with
  | EmptyString => false
  | String a s' => Ascii.eqb a c || has_char c s'
  end.

(** A name as a deployer lists it: not empty, without space or comma. *)
Definition clean_name (name : string) : bool :=
  nonempty name && negb (has_char " "%char name)
  && negb (has_char ","%char name).

(** A token as CloudWatch Logs writes it at the end of the message: without
    colon, and without space at either end. *)
Definition clean_token (token : string) : bool :=
  negb (has_char ":"%char token)
  && String.eqb (lstrip token) token && String.eqb (rstrip token) token.

(** The first of the four keys of [contact] that a mapping lacks. *)
Definition first_missing (d : dict) : option string :=
  find (fun k => match dict_get k d with None => true | Some _ => false end)
       ["source"; "name"; "email"; "description"].

(** The score of a report item is outside [(0.99, 1]]. *)
Definition out_of_range (item : dict) : bool :=
  match dict_get "latest_score_value" item with
  | Some (VFloat score) => negb (score_in_range score)
  | _ => false
  end.

(** What the marking loop makes of one item. *)
Definition marked (item : dict) : dict :=
  if out_of_range item then dict_set "error" (VBool true) item else item.


(** * Theorems *)

(** ** Strings *)

Lemma split_not_nil (sep : ascii) (s : string) : split sep s <> [].
Proof.
  destruct s as [|c s]; simpl; [discriminate|].
  destruct (Ascii.eqb c sep); [discriminate|].
  destruct (split sep s); discriminate.
Qed.

Lemma split_no_colon (s : string) :
  has_colon s = false -> split ":"%char s = [s].
Proof.
  induction s as [|c s IH]; simpl; intros Hc; [reflexivity|].
  apply orb_false_iff in Hc as [Hc Hs].
  rewrite Hc, (IH Hs). reflexivity.
Qed.

Lemma last_cons_not_nil {A} (a d : A) (l : list A) :
  l <> [] -> last (a :: l) d = last l d.
Proof. destruct l; [congruence | reflexivity]. Qed.

Lemma split_has_colon (s : string) :
  has_colon s = true -> exists h x t, split ":"%char s = h :: x :: t.
Proof.
  induction s as [|c s IH]; simpl; [discriminate|].
  intros Hc. destruct (Ascii.eqb c ":"%char).
  - destruct (split ":"%char s) as [|x t] eqn:Es.
    + now apply split_not_nil in Es.
    + eauto.
  - destruct (IH Hc) as (h & x & t & ->). eauto.
Qed.

(** The source's [split(":")[-1]] is the trailing segment. *)
Lemma last_split_after_last_colon (s : string) :
  last (split ":"%char s) EmptyString = after_last_colon s.
Proof.
  induction s as [|c s IH]; [reflexivity|].
  cbn [split after_last_colon].
  destruct (has_colon s) eqn:Hc.
  - destruct (Ascii.eqb c ":"%char).
    + rewrite last_cons_not_nil by apply split_not_nil. exact IH.
    + destruct (split_has_colon s Hc) as (h & x & t & Es).
      rewrite Es in *. exact IH.
  - rewrite (split_no_colon s Hc).
    destruct (Ascii.eqb c ":"%char); reflexivity.
Qed.

Lemma token_of_message_trailing (msg : string) :
  token_of_message msg = strip (after_last_colon msg).
Proof. unfold token_of_message. now rewrite last_split_after_last_colon. Qed.

Lemma token_argument_Some (tok : string) :
  token_argument (Some tok)
  = if String.eqb tok EmptyString then None else Some tok.
Proof. destruct tok; reflexivity. Qed.

(** ** The log writer *)

Section Writer.
Context {World : Type} {B : Boto3 World} {P : Python}.

(** One turn of the loop, on the answer of the service. *)
Lemma put_loop_step (g st : string) (ev : LogEvent) (tok : option string)
    (n : nat) (s : state World) :
  put_loop g st ev tok (S n) s =
  let (r, w') := put_log_events g st [ev] (token_argument tok) (world s) in
  let s' := {| world := w';
               trace := trace s ++ [attempt g st ev tok (raised_of r)] |} in
  match r with
  | Ok _ => (Return (Some (delivered g st)), s')
  | Error (ClientError code msg text) =>
      if is_conflict code then
        match n with
        | S _ => put_loop g st ev (Some (token_of_message msg)) n s'
        | O => (Raise (exhausted), s')
        end
      else (Raise (unexpected text), s')
  | Error f => (Raise (Fault f), s')
  end.
Proof.
  cbn [put_loop]. unfold try_except, bind, perform, ret, raise, attempt.
  destruct (put_log_events g st [ev] (token_argument tok) (world s))
    as [[[]|f] w'].
  - reflexivity.
  - destruct f; cbn [outcome_of]; try reflexivity.
    destruct (is_conflict Code); [destruct n|]; reflexivity.
Qed.

(** Every run of the loop is a run of the state machine, and it only adds
    its own exchanges to the trace. *)
Lemma put_loop_attempts (g st : string) (ev : LogEvent) (n : nat) :
  forall (tok : option string) (s : state World),
  exists xs,
    trace (snd (put_loop g st ev tok n s)) = (trace s ++ xs)%list
    /\ attempts g st ev tok n xs (fst (put_loop g st ev tok n s)).
Proof.
  induction n as [|n IH]; intros tok s.
  - exists []. cbn. rewrite app_nil_r. split; [reflexivity | constructor].
  - rewrite put_loop_step.
    destruct (put_log_events g st [ev] (token_argument tok) (world s))
      as [[[]|f] w']; cbv zeta.
    + eexists. split; [reflexivity | constructor].
    + destruct f as [code msg text| | | | | |];
        try (eexists; split; [reflexivity | constructor; discriminate]).
      destruct (is_conflict code) eqn:Hc.
      * destruct n as [|n].
        -- eexists. split; [reflexivity | now constructor].
        -- match goal with
           | |- context [put_loop g st ev ?t (S n) ?s1] =>
               destruct (IH t s1) as (xs & Ht & Ha)
           end.
           eexists. split.
           ++ rewrite Ht. cbn [trace]. rewrite <- app_assoc. reflexivity.
           ++ cbn [raised_of]. now constructor.
      * eexists. split; [reflexivity | now constructor].
Qed.

(** The writer with a non-empty message: one clock read, then the loop with
    no token and three retrials. *)
Lemma send_event_attempts (g st : string) (message : dict) (w : World) :
  dict_truthy message = true ->
  exists ms,
    int_of_float (fst (time w) * 1000)%float = Ok ms
    /\ attempts g st
         {| timestamp := ms; message := json_dumps (VDict message) |}
         None 3
         (trace (snd (send_event_to_logstream g st message (start w))))
         (fst (send_event_to_logstream g st message (start w))).
Proof.
  intros Hm. destruct (time_finite w) as [ms Hms]. exists ms.
  split; [exact Hms|].
  unfold send_event_to_logstream. rewrite Hm.
  unfold bind, read_clock, lift, start. cbn [world trace].
  destruct (time w) as [t w1]. cbn [fst] in Hms. rewrite Hms.
  cbn [outcome_of].
  match goal with
  | |- context [put_loop g st ?ev None 3 ?s1] =>
      destruct (put_loop_attempts g st ev 3 None s1) as (xs & Ht & Ha)
  end.
  cbn [trace app] in Ht. rewrite Ht. exact Ha.
Qed.

(** *** Facts about the runs of the state machine *)

Lemma singleton_split {A} (a x : A) (pre post : list A) :
  [a] = (pre ++ x :: post)%list -> pre = [] /\ x = a /\ post = [].
Proof.
  destruct pre as [|b pre]; cbn; intros E.
  - injection E as -> <-. auto.
  - injection E as _ E. now destruct pre.
Qed.

Lemma attempts_head g st ev tok n x xs o :
  attempts g st ev tok n (x :: xs) o ->
  request x = logs_put_log_events g st [ev] (token_argument tok).
Proof. inversion 1; reflexivity. Qed.

Lemma attempts_requests g st ev tok n xs o :
  attempts g st ev tok n xs o ->
  Forall (fun x => exists t, request x = logs_put_log_events g st [ev] t) xs.
Proof.
  induction 1; repeat constructor; try (eexists; reflexivity); assumption.
Qed.

Lemma attempts_unrecognized g st ev tok n xs o :
  attempts g st ev tok n xs o ->
  forall pre x post code msg text,
    xs = (pre ++ x :: post)%list ->
    raised x = Some (ClientError code msg text) ->
    is_conflict code = false ->
    post = [] /\ o = Raise (unexpected text).
Proof.
  induction 1 as [tok|tok n|tok n c m t xs o Hc Ha IH|tok c m t Hc
                 |tok n c m t Hc|tok n f Hf];
    intros pre x post code msg text E Hx Hcode.
  - now destruct pre.
  - apply singleton_split in E as (_ & -> & _). discriminate.
  - destruct pre as [|a pre]; cbn in E.
    + injection E as <- _. cbn in Hx. congruence.
    + injection E as _ E. eapply IH; eassumption.
  - apply singleton_split in E as (_ & -> & _). cbn in Hx. congruence.
  - apply singleton_split in E as (_ & -> & ->). cbn in Hx.
    injection Hx as _ _ ->. auto.
  - apply singleton_split in E as (_ & -> & _). cbn in Hx.
    injection Hx as ->. now elim (Hf code msg text).
Qed.

Lemma attempts_next g st ev tok n xs o :
  attempts g st ev tok n xs o ->
  forall pre x y post,
    xs = (pre ++ x :: y :: post)%list ->
    exists code msg text,
      raised x = Some (ClientError code msg text)
      /\ is_conflict code = true
      /\ sequence_token_of (request y)
         = token_argument (Some (token_of_message msg)).
Proof.
  induction 1 as [tok|tok n|tok n c m t xs o Hc Ha IH|tok c m t Hc
                 |tok n c m t Hc|tok n f Hf];
    intros pre x y post E;
    try (now destruct pre as [|? [|? ?]]).
  destruct pre as [|a pre]; cbn in E.
  - injection E as <- ->. exists c, m, t. repeat split; [exact Hc|].
    now rewrite (attempts_head _ _ _ _ _ _ _ _ Ha).
  - injection E as _ E. eapply IH; eassumption.
Qed.

Lemma attempts_all_conflicts g st ev tok xs o :
  attempts g st ev tok 3 xs o ->
  Forall (fun x => conflicted x = true) xs ->
  o = Raise exhausted
  /\ exists x1 x2 x3,
       xs = [x1; x2; x3]
       /\ sequence_token_of (request x1) = token_argument tok
       /\ sequence_token_of (request x2)
          = token_argument (Some (token_of_message (message_of x1)))
       /\ sequence_token_of (request x3)
          = token_argument (Some (token_of_message (message_of x2))).
Proof.
  assert (Hno : forall t k ys r,
             attempts g st ev t (S k) ys r ->
             Forall (fun x => conflicted x = true) ys ->
             exists c m e zs,
               is_conflict c = true
               /\ ys = attempt g st ev t (Some (ClientError c m e)) :: zs
               /\ ((k = 0%nat /\ zs = [] /\ r = Raise exhausted)
                   \/ (exists k', k = S k'
                        /\ attempts g st ev (Some (token_of_message m))
                             (S k') zs r))).
  { intros t k ys r Ha Hall.
    inversion Ha; subst; inversion Hall as [|? ? Hx Hrest]; subst;
      unfold conflicted in Hx; cbn [raised attempt] in Hx.
    - discriminate.
    - do 4 eexists. split; [eassumption|]. split; [reflexivity|].
      right. eexists. split; [reflexivity | assumption].
    - do 4 eexists. split; [eassumption|]. split; [reflexivity|]. now left.
    - congruence.
    - destruct f; try discriminate.
      match goal with
      | Hf : forall _ _ _, _ <> _ |- _ => exfalso; eapply Hf; reflexivity
      end. }
  intros Ha Hall.
  destruct (Hno _ _ _ _ Ha Hall) as (c1 & m1 & e1 & zs1 & _ & -> & [[? _]|(k1 & Hk1 & Ha1)]);
    [discriminate|].
  injection Hk1 as <-.
  inversion Hall as [|? ? _ Hall1]; subst.
  destruct (Hno _ _ _ _ Ha1 Hall1) as (c2 & m2 & e2 & zs2 & _ & -> & [[? _]|(k2 & Hk2 & Ha2)]);
    [discriminate|].
  injection Hk2 as <-.
  inversion Hall1 as [|? ? _ Hall2]; subst.
  destruct (Hno _ _ _ _ Ha2 Hall2) as (c3 & m3 & e3 & zs3 & _ & -> & [(_ & -> & ->)|(k3 & Hk3 & _)]);
    [|discriminate].
  split; [reflexivity|].
  do 3 eexists. repeat split.
Qed.

(** *** The claims about the writer *)

(** C3.  Called with an empty message mapping, [send_event_to_logstream]
    fails at once with a Structured Failure of status 500; the world and the
    trace of network calls are as they were: no append is sent. *)
Theorem writer_empty_message (g st : string) (s : state World) :
  fst (send_event_to_logstream g st [] s)
  = Raise (HandledError (VStr "No content to send to Log Stream, aborting")
                        (Some 500))
  /\ trace (snd (send_event_to_logstream g st [] s)) = trace s
  /\ world (snd (send_event_to_logstream g st [] s)) = world s.
Proof.
  unfold send_event_to_logstream. cbn [dict_truthy].
  unfold raise. cbn [fst snd]. repeat split.
Qed.

Lemma send_event_trace_nil (g st : string) (message : dict) (w : World) :
  dict_truthy message = false ->
  trace (snd (send_event_to_logstream g st message (start w))) = [].
Proof. destruct message; [reflexivity | discriminate]. Qed.

(** C4.  When an append of a run of [send_event_to_logstream] fails with a
    client error whose code is not one of the two conflict codes, that
    append is the last exchange of the run (no further attempt) and the run
    ends in a Structured Failure of status 500 whose message ends with the
    text of the original error. *)
Theorem writer_unrecognized_error (g st : string) (message : dict) (w : World)
    (pre post : list exchange) (x : exchange) (code msg text : string) :
  trace (snd (send_event_to_logstream g st message (start w)))
  = (pre ++ x :: post)%list ->
  raised x = Some (ClientError code msg text) ->
  is_conflict code = false ->
  post = []
  /\ fst (send_event_to_logstream g st message (start w))
     = Raise (HandledError
                (VStr ("Unexpected response from boto client: " ++ text))
                (Some 500)).
Proof.
  intros E Hx Hc.
  destruct (dict_truthy message) eqn:Hm.
  - destruct (send_event_attempts g st message w Hm) as (ms & _ & Ha).
    exact (attempts_unrecognized _ _ _ _ _ _ _ Ha _ _ _ _ _ _ E Hx Hc).
  - rewrite (send_event_trace_nil g st message w Hm) in E. now destruct pre.
Qed.

(** C10.  The record of a run is built once, from the clock read on entry
    and the serialized message: every network call of the run is an append
    to the same group and stream carrying exactly that one record, whatever
    its sequence token. *)
Theorem writer_same_record (g st : string) (message : dict) (w : World) :
  exists ms,
    int_of_float (fst (time w) * 1000)%float = Ok ms
    /\ Forall
         (fun x =>
            exists tok,
              request x
              = logs_put_log_events g st
                  [{| timestamp := ms;
                      message := json_dumps (VDict message) |}] tok)
         (trace (snd (send_event_to_logstream g st message (start w)))).
Proof.
  destruct (dict_truthy message) eqn:Hm.
  - destruct (send_event_attempts g st message w Hm) as (ms & Hms & Ha).
    exists ms. split; [exact Hms|]. exact (attempts_requests _ _ _ _ _ _ _ Ha).
  - destruct (time_finite w) as [ms Hms]. exists ms. split; [exact Hms|].
    rewrite (send_event_trace_nil g st message w Hm). constructor.
Qed.

(** C1, as the code has it.  With a non-empty message, when every append of
    the run fails with one of the two conflict codes, the run makes exactly
    three appends, the first without a token and each next one with the
    token taken from the conflict before it, and the third conflict ends the
    run in a Structured Failure of status 500 whose message says
    "after 3 retrials": there is no fourth append. *)
Theorem writer_three_attempts (g st : string) (message : dict) (w : World) :
  dict_truthy message = true ->
  Forall (fun x => conflicted x = true)
    (trace (snd (send_event_to_logstream g st message (start w)))) ->
  fst (send_event_to_logstream g st message (start w))
  = Raise (HandledError
             (VStr "Failed sending event content to CloudWatch Logs after 3 retrials")
             (Some 500))
  /\ exists x1 x2 x3,
       trace (snd (send_event_to_logstream g st message (start w)))
       = [x1; x2; x3]
       /\ sequence_token_of (request x1) = None
       /\ sequence_token_of (request x2)
          = token_argument (Some (token_of_message (message_of x1)))
       /\ sequence_token_of (request x3)
          = token_argument (Some (token_of_message (message_of x2))).
Proof.
  intros Hm Hall.
  destruct (send_event_attempts g st message w Hm) as (ms & _ & Ha).
  exact (attempts_all_conflicts _ _ _ _ _ _ Ha Hall).
Qed.

(** C2, as the code has it.  The first append of a run carries no sequence
    token.  An append that is followed by another one failed with one of the
    two conflict codes, and the next append carries the trailing segment of
    that error's message (what follows its last colon), spaces stripped on
    both ends, when that segment is not empty; when it is empty the next
    append carries no sequence token. *)
Theorem writer_next_token (g st : string) (message : dict) (w : World) :
  (forall x rest,
     trace (snd (send_event_to_logstream g st message (start w))) = x :: rest ->
     sequence_token_of (request x) = None)
  /\ (forall pre x y post,
        trace (snd (send_event_to_logstream g st message (start w)))
        = (pre ++ x :: y :: post)%list ->
        exists code msg text,
          raised x = Some (ClientError code msg text)
          /\ is_conflict code = true
          /\ token_of_message msg = strip (after_last_colon msg)
          /\ sequence_token_of (request y)
             = if String.eqb (token_of_message msg) EmptyString then None
               else Some (token_of_message msg)).
Proof.
  destruct (dict_truthy message) eqn:Hm.
  - destruct (send_event_attempts g st message w Hm) as (ms & _ & Ha).
    split.
    + intros x rest E. rewrite E in Ha.
      now rewrite (attempts_head _ _ _ _ _ _ _ _ Ha).
    + intros pre x y post E.
      destruct (attempts_next _ _ _ _ _ _ _ Ha _ _ _ _ E)
        as (code & msg & text & Hx & Hc & Hy).
      exists code, msg, text. repeat split; try assumption.
      * apply token_of_message_trailing.
      * rewrite Hy. apply token_argument_Some.
  - rewrite (send_event_trace_nil g st message w Hm).
    split; [discriminate|]. intros pre ? ? ? E. now destruct pre.
Qed.

End Writer.

(** *** Runs of the writer on the scripted world *)

(** C1, refuted as stated.  On four conflicts in a row with the tokens t1
    to t4, the writer has failed with status 500 after three appends: there
    is no fourth append, no append carries t3, and the fourth conflict of
    the script is never asked for. *)
Lemma writer_no_fourth_attempt :
  let run := OnDouble.send_event_to_logstream "reports" "twitter"
               WriterRuns.note (start WriterRuns.four_conflicts) in
  fst run
  = Raise (HandledError
             (VStr "Failed sending event content to CloudWatch Logs after 3 retrials")
             (Some 500))
  /\ length (trace (snd run)) <> 4%nat
  /\ WriterRuns.tokens (trace (snd run)) = [None; Some "t1"; Some "t2"]
  /\ ~ In (Some "t3") (WriterRuns.tokens (trace (snd run)))
  /\ Double.put_script (world (snd run)) = [WriterRuns.invalid_token "t4"].
Proof.
  vm_compute. repeat split; try discriminate.
  intros [E|[E|[E|[]]]]; discriminate.
Qed.

Lemma writer_three_attempts_witness :
  let run := OnDouble.send_event_to_logstream "reports" "twitter"
               WriterRuns.note (start WriterRuns.four_conflicts) in
  fst run
  = Raise (HandledError
             (VStr "Failed sending event content to CloudWatch Logs after 3 retrials")
             (Some 500))
  /\ exists x1 x2 x3,
       trace (snd run) = [x1; x2; x3]
       /\ sequence_token_of (request x1) = None
       /\ sequence_token_of (request x2)
          = token_argument (Some (token_of_message (message_of x1)))
       /\ sequence_token_of (request x3)
          = token_argument (Some (token_of_message (message_of x2))).
Proof.
  apply (@writer_three_attempts Double.World Double.boto3 Double.python
           "reports" "twitter" WriterRuns.note WriterRuns.four_conflicts).
  - reflexivity.
  - vm_compute. repeat constructor.
Defined.

(** C2, refuted as stated.  When the message of the conflict ends with its
    colon and a space, the trailing segment is empty, and the second append
    carries no sequence token at all rather than that segment. *)
Lemma writer_empty_token_dropped :
  let run := OnDouble.send_event_to_logstream "reports" "twitter"
               WriterRuns.note
               (start (WriterRuns.with_puts [WriterRuns.invalid_token ""; Ok tt])) in
  exists x y,
    trace (snd run) = [x; y]
    /\ conflicted x = true
    /\ strip (after_last_colon (message_of x)) = ""
    /\ sequence_token_of (request y) = None
    /\ sequence_token_of (request y)
       <> Some (strip (after_last_colon (message_of x))).
Proof.
  vm_compute. do 2 eexists. split; [reflexivity|].
  repeat split. discriminate.
Qed.

Lemma writer_next_token_witness :
  exists code msg text,
    raised (attempt "reports" "twitter" WriterRuns.record None
              (raised_of (WriterRuns.invalid_token "abc123")))
    = Some (ClientError code msg text)
    /\ is_conflict code = true
    /\ token_of_message msg = strip (after_last_colon msg)
    /\ sequence_token_of
         (request (attempt "reports" "twitter" WriterRuns.record
                     (Some "abc123") None))
       = if String.eqb (token_of_message msg) EmptyString then None
         else Some (token_of_message msg).
Proof.
  apply (proj2 (@writer_next_token Double.World Double.boto3 Double.python
                  "reports" "twitter" WriterRuns.note
                  (WriterRuns.with_puts
                     [WriterRuns.invalid_token "abc123"; Ok tt])))
    with (pre := []) (post := []).
  vm_compute. reflexivity.
Defined.

Lemma writer_unrecognized_error_witness :
  let missing :=
    ClientError "ResourceNotFoundException"
      "The specified log group does not exist."
      "An error occurred (ResourceNotFoundException) when calling the PutLogEvents operation: The specified log group does not exist." in
  let run := OnDouble.send_event_to_logstream "reports" "twitter"
               WriterRuns.note
               (start (WriterRuns.with_puts [Error missing; Ok tt])) in
  @nil exchange = []
  /\ fst run
     = Raise (HandledError
                (VStr ("Unexpected response from boto client: "
                       ++ "An error occurred (ResourceNotFoundException) when calling the PutLogEvents operation: The specified log group does not exist."))
                (Some 500)).
Proof.
  intros missing run.
  apply (@writer_unrecognized_error Double.World Double.boto3 Double.python
           "reports" "twitter" WriterRuns.note
           (WriterRuns.with_puts [Error missing; Ok tt])
           [] [] (attempt "reports" "twitter" WriterRuns.record None (Some missing))
           "ResourceNotFoundException"
           "The specified log group does not exist.").
  - vm_compute. reflexivity.
  - reflexivity.
  - reflexivity.
Defined.

(** ** The remote invocation helpers *)

Section Helpers.
Context {World : Type} {B : Boto3 World} {P : Python} {U : Utils}.

(** C5.  Once the topic service has acknowledged the publication,
    [publish_to_sns_topic] ends in the process-terminating [SystemExit]
    (neither a return value nor a Structured Failure) when the
    acknowledgment has no MessageId key, and returns a response holding the
    identifier when it has one. *)
Theorem publish_message_id (sns_topic subject : string) (content : value)
    (s : state World) (ack : dict) (w' : World) :
  publish sns_topic (json_dumps content) subject (world s) = (Ok ack, w') ->
  (dict_get "MessageId" ack = None ->
   fst (publish_to_sns_topic sns_topic subject content s)
   = Raise (SystemExit "Missing MessageId in SNS response"))
  /\ (forall message_id,
        dict_get "MessageId" ack = Some message_id ->
        fst (publish_to_sns_topic sns_topic subject content s)
        = Return (Response_put message_id Response_new)).
Proof.
  intros E. unfold publish_to_sns_topic, bind, perform. rewrite E.
  cbn [outcome_of]. split.
  - intros ->. reflexivity.
  - intros message_id ->. reflexivity.
Qed.

(** C6, as the code has it.  A mode outside DryRun, RequestResponse and
    Event is a Structured Failure of status 400 and leaves the state as it
    was (no network call).  For a recognized mode and a remote status
    outside [200,300), the call ends in a Structured Failure carrying that
    status when the mode is Event or the remote payload deserializes; in
    the two synchronous modes a payload that does not deserialize ends the
    call in the fault of [json.load], whatever the status. *)
Theorem invoke_lambda_failures (name : string) (payload : value)
    (invoke_type : string) (s : state World) :
  (str_in invoke_type ["DryRun"; "RequestResponse"; "Event"] = false ->
   invoke_lambda name payload invoke_type s
   = (Raise (HandledError (VStr ("invalid invoke_type: " ++ invoke_type))
                          (Some 400)), s))
  /\ (forall resp w',
        str_in invoke_type ["DryRun"; "RequestResponse"; "Event"] = true ->
        invoke name invoke_type (json_dumps payload) (world s) = (Ok resp, w') ->
        ~ (200 <= StatusCode resp < 300) ->
        (str_in invoke_type ["DryRun"; "RequestResponse"] = false
         \/ exists v, json_loads (Payload resp) = Ok v) ->
        fst (invoke_lambda name payload invoke_type s)
        = Raise (HandledError
                   (VStr ("lambda response: " ++ str_of_invoke_output resp))
                   (Some (StatusCode resp))))
  /\ (forall resp w' f,
        str_in invoke_type ["DryRun"; "RequestResponse"] = true ->
        invoke name invoke_type (json_dumps payload) (world s) = (Ok resp, w') ->
        json_loads (Payload resp) = Error f ->
        fst (invoke_lambda name payload invoke_type s) = Raise (Fault f)).
Proof.
  split; [|split].
  - intros Hmode. unfold invoke_lambda. now rewrite Hmode.
  - intros resp w' Hmode E Hstatus Hpayload.
    unfold invoke_lambda. rewrite Hmode. cbn [negb].
    unfold bind, perform. rewrite E. cbn [outcome_of].
    assert (Hout : negb ((200 <=? StatusCode resp) && (StatusCode resp <? 300))
                   = true).
    { apply negb_true_iff, andb_false_iff.
      destruct (200 <=? StatusCode resp) eqn:H1; [right | now left].
      apply Z.leb_le in H1. apply Z.ltb_ge. lia. }
    destruct Hpayload as [Hasync | [v Hv]].
    + rewrite Hasync. unfold ret. now rewrite Hout.
    + destruct (str_in invoke_type ["DryRun"; "RequestResponse"]).
      * unfold lift. rewrite Hv. cbn [outcome_of]. unfold ret.
        now rewrite Hout.
      * unfold ret. now rewrite Hout.
  - intros resp w' f Hsync E Hf.
    assert (Hmode : str_in invoke_type ["DryRun"; "RequestResponse"; "Event"]
                    = true).
    { cbn in *. apply orb_true_iff in Hsync as [->|Hsync]; [reflexivity|].
      apply orb_true_iff in Hsync as [->|Hsync]; [|discriminate].
      now rewrite orb_true_r. }
    unfold invoke_lambda. rewrite Hmode. cbn [negb].
    unfold bind, perform. rewrite E. cbn [outcome_of].
    rewrite Hsync. unfold lift. rewrite Hf. reflexivity.
Qed.

(** C7.  On the answer of the object store: an object is returned through
    its body, unchanged; a client error with code NoSuchKey becomes a
    Structured Failure of status 404; any other error is raised again as it
    is. *)
Theorem get_object_outcomes (key bucket : string) (s : state World)
    (r : result GetObjectOutput) (w' : World) :
  get_object bucket key (world s) = (r, w') ->
  (forall response,
     r = Ok response ->
     fst (get_object_from_s3_bucket key bucket s) = Return (Body response))
  /\ (forall msg text,
        r = Error (ClientError "NoSuchKey" msg text) ->
        fst (get_object_from_s3_bucket key bucket s)
        = Raise (HandledError
                   (VStr ("Key " ++ key ++ " not found in bucket " ++ bucket))
                   (Some 404)))
  /\ (forall f,
        r = Error f ->
        (forall msg text, f <> ClientError "NoSuchKey" msg text) ->
        fst (get_object_from_s3_bucket key bucket s) = Raise (Fault f)).
Proof.
  intros E.
  unfold get_object_from_s3_bucket, try_except, bind, perform. rewrite E.
  repeat split.
  - intros response ->. reflexivity.
  - intros msg text ->. reflexivity.
  - intros f -> Hf. cbn [outcome_of].
    destruct f as [code msg text| | | | | |]; try reflexivity.
    destruct (String.eqb code "NoSuchKey") eqn:Hcode; [|reflexivity].
    apply String.eqb_eq in Hcode. subst code. now elim (Hf msg text).
Qed.

End Helpers.

(** ** The status codes of the Structured Failures *)

Section StatusCodes.
Context {World : Type} {B : Boto3 World} {P : Python} {U : Utils}.

Lemma raises_weaken {A} (o : outcome A) (Q R : value -> option Z -> Prop) :
  (forall msg sc, Q msg sc -> R msg sc) -> raises o Q -> raises o R.
Proof. intros HQR. destruct o as [a|[msg sc| |]]; cbn; auto. Qed.

Lemma raises_then_ret {A C} (m : M World A) (f : A -> C) (s : state World)
    (Q : value -> option Z -> Prop) :
  raises (fst (m s)) Q -> raises (fst ((x <- m ;; ret (f x)) s)) Q.
Proof. unfold bind, ret. destruct (m s) as [[a|e] s']; cbn; auto. Qed.

Lemma invoke_lambda_raises (name : string) (payload : value)
    (invoke_type : string) (s : state World) :
  raises (fst (invoke_lambda name payload invoke_type s))
    (fun msg sc =>
       (str_in invoke_type ["DryRun"; "RequestResponse"; "Event"] = false
        /\ sc = Some 400)
       \/ exists resp w',
            invoke name invoke_type (json_dumps payload) (world s)
            = (Ok resp, w')
            /\ msg = VStr ("lambda response: " ++ str_of_invoke_output resp)
            /\ sc = Some (StatusCode resp)).
Proof.
  unfold invoke_lambda.
  destruct (str_in invoke_type ["DryRun"; "RequestResponse"; "Event"]);
    cbn [negb]; [|cbn; now left].
  unfold bind, perform.
  destruct (invoke name invoke_type (json_dumps payload) (world s))
    as [[resp|f] w'] eqn:E; cbn [outcome_of]; [|exact I].
  assert (Hend : forall (r : Response) (s1 : state World),
             raises
               (fst ((if negb ((200 <=? StatusCode resp)
                               && (StatusCode resp <? 300))
                      then raise (HandledError
                                    (VStr ("lambda response: "
                                           ++ str_of_invoke_output resp))
                                    (Some (StatusCode resp)))
                      else ret r) s1))
               (fun msg sc =>
                  (true = false /\ sc = Some 400)
                  \/ exists resp0 w0,
                       (Ok resp, w') = (Ok resp0, w0)
                       /\ msg = VStr ("lambda response: "
                                      ++ str_of_invoke_output resp0)
                       /\ sc = Some (StatusCode resp0))).
  { intros r s1.
    destruct (negb ((200 <=? StatusCode resp) && (StatusCode resp <? 300)));
      cbn; [|exact I].
    right. exists resp, w'. auto. }
  destruct (str_in invoke_type ["DryRun"; "RequestResponse"]).
  - unfold lift. destruct (json_loads (Payload resp)) as [v|f];
      cbn [outcome_of]; [apply Hend | exact I].
  - apply Hend.
Qed.

Lemma attempts_raises g st ev tok n xs o :
  attempts g st ev tok n xs o -> raises o (fun _ sc => sc = Some 500).
Proof. induction 1; cbn; auto. Qed.

Lemma send_event_raises (g st : string) (message : dict) (s : state World) :
  raises (fst (send_event_to_logstream g st message s))
         (fun _ sc => sc = Some 500).
Proof.
  unfold send_event_to_logstream.
  destruct (dict_truthy message); [|reflexivity].
  unfold bind, read_clock, lift.
  destruct (time (world s)) as [t w1].
  destruct (int_of_float (t * 1000)%float) as [ms|f]; cbn [outcome_of];
    [|exact I].
  match goal with
  | |- context [put_loop g st ?ev None 3 ?s1] =>
      destruct (put_loop_attempts g st ev 3 None s1) as (xs & _ & Ha)
  end.
  exact (attempts_raises _ _ _ _ _ _ _ Ha).
Qed.

Lemma get_object_raises (key bucket : string) (s : state World) :
  raises (fst (get_object_from_s3_bucket key bucket s))
         (fun _ sc => sc = Some 404).
Proof.
  unfold get_object_from_s3_bucket, try_except, bind, perform.
  destruct (get_object bucket key (world s)) as [[response|f] w'];
    cbn [outcome_of]; [exact I|].
  destruct f as [code msg text| | | | | |]; try exact I.
  destruct (String.eqb code "NoSuchKey"); [reflexivity | exact I].
Qed.

Lemma pagespeed_report_raises (environ : list (string * string))
    (event : LambdaEvent) (s : state World) :
  raises (fst (pagespeed_report environ event s))
         (fun _ sc => sc = Some 500 \/ sc = Some 400).
Proof.
  unfold pagespeed_report, scan_dynamodb_table, bind, lift, perform.
  destruct (env_get "PAGESPEED_TABLE" environ) as [table|f];
    cbn [outcome_of]; [|exact I].
  destruct (scan table (world s)) as [[data|f] w']; cbn [outcome_of];
    [|exact I].
  destruct (getitem (VDict data) "Count") as [count|f]; cbn [outcome_of];
    [|exact I].
  destruct (eq_zero count); [cbn; now left|].
  destruct (getitem (VDict data) "Items") as [rows|f]; cbn [outcome_of];
    [|exact I].
  destruct rows as [| | | | |rows|]; try exact I.
  destruct (report_items rows) as [items|f]; cbn [outcome_of]; [|exact I].
  destruct (mark_errors items) as [marked errors].
  destruct errors; cbn; [now right | exact I].
Qed.

Lemma bind_lift {A C} (r : result A) (k : A -> M World C) (s : state World) :
  (x <- lift r ;; k x) s
  = match r with
    | Ok a => k a s
    | Error f => (Raise (Fault f), s)
    end.
Proof. destruct r; reflexivity. Qed.

Lemma bind_run {A C} (m : M World A) (k : A -> M World C) (s : state World)
    (o : outcome A) (s' : state World) :
  m s = (o, s') ->
  (x <- m ;; k x) s
  = match o with
    | Return a => k a s'
    | Raise e => (Raise e, s')
    end.
Proof. intros E. unfold bind. rewrite E. reflexivity. Qed.

(** The [try] block of [contact] leaves the state alone; its Structured
    Failures carry no status code. *)
Lemma contact_try_run (body : option string) (s : state World) :
  exists o,
    contact_try body s = (o, s)
    /\ raises o (fun _ sc => sc = None)
    /\ (forall loaded msg,
          loads_body body = Ok loaded ->
          contact_message loaded = Ok msg ->
          o = Return msg).
Proof.
  unfold contact_try, try_except. rewrite bind_lift.
  destruct (loads_body body) as [loaded|f].
  - unfold lift.
    destruct (contact_message loaded) as [msg|f] eqn:Em; cbn [outcome_of].
    + eexists. split; [reflexivity|]. split; [exact I|].
      intros l m [= <-] Hm. congruence.
    + destruct f; eexists; (split; [reflexivity|]);
        (split; [cbn; auto | intros l m [= <-] Hm; congruence]).
  - destruct f; eexists; (split; [reflexivity|]);
      (split; [cbn; auto | discriminate]).
Qed.

Lemma contact_raises (environ : list (string * string))
    (event : LambdaEvent) (s : state World) :
  raises (fst (contact environ event s))
    (fun msg sc =>
       sc = None
       \/ exists name payload resp w',
            invoke name "RequestResponse" (json_dumps payload) (world s)
            = (Ok resp, w')
            /\ sc = Some (StatusCode resp)).
Proof.
  unfold contact. rewrite bind_lift.
  destruct (env_get "LAMBDA_NOTIFICATIONS" environ) as [name|f]; [|exact I].
  destruct (contact_try_run (body event) s) as (o & E & Ho & _).
  rewrite (bind_run _ _ _ _ _ E).
  destruct o as [msg|e].
  - apply raises_then_ret.
    eapply raises_weaken; [|apply invoke_lambda_raises].
    intros m sc [[Habs _]|(resp & w' & Ei & _ & ->)]; [discriminate|].
    right. do 4 eexists. split; [exact Ei | reflexivity].
  - eapply raises_weaken; [|exact Ho]. cbn. auto.
Qed.

(** C8, as the code has it.  Every Structured Failure raised by the helpers
    of [aws.py] and by [pagespeed_report] carries an explicit status code:
    400 or the remote status for [invoke_lambda], 500 for
    [send_event_to_logstream], 404 for [get_object_from_s3_bucket], 500 or
    400 for [pagespeed_report].  A Structured Failure of [contact] carries no
    status code at all when it comes from its own two raise sites; otherwise
    it is the remote status passed through by [invoke_lambda]. *)
Theorem structured_failure_status_codes :
  (forall name payload invoke_type (s : state World),
     raises (fst (invoke_lambda name payload invoke_type s))
       (fun _ sc =>
          sc = Some 400
          \/ exists resp w',
               invoke name invoke_type (json_dumps payload) (world s)
               = (Ok resp, w')
               /\ sc = Some (StatusCode resp)))
  /\ (forall g st message (s : state World),
        raises (fst (send_event_to_logstream g st message s))
          (fun _ sc => sc = Some 500))
  /\ (forall key bucket (s : state World),
        raises (fst (get_object_from_s3_bucket key bucket s))
          (fun _ sc => sc = Some 404))
  /\ (forall environ event (s : state World),
        raises (fst (pagespeed_report environ event s))
          (fun _ sc => sc = Some 500 \/ sc = Some 400))
  /\ (forall environ event (s : state World),
        raises (fst (contact environ event s))
          (fun _ sc =>
             sc = None
             \/ exists name payload resp w',
                  invoke name "RequestResponse" (json_dumps payload) (world s)
                  = (Ok resp, w')
                  /\ sc = Some (StatusCode resp))).
Proof.
  repeat split.
  - intros name payload invoke_type s.
    eapply raises_weaken; [|apply invoke_lambda_raises].
    intros msg sc [[_ ->]|(resp & w' & E & _ & ->)]; [now left|].
    right. eauto.
  - apply send_event_raises.
  - apply get_object_raises.
  - apply pagespeed_report_raises.
  - apply contact_raises.
Qed.

End StatusCodes.

(** ** The contact handler, end to end *)

Section Contact.
Context {World : Type} {B : Boto3 World} {P : Python} {U : Utils}.

(** A synchronous invocation that the remote function answers with a
    status in [200,300) and a JSON payload. *)
Lemma invoke_lambda_success (name : string) (payload : value)
    (invoke_type : string) (s : state World) (resp : InvokeOutput)
    (w' : World) (v : value) :
  str_in invoke_type ["DryRun"; "RequestResponse"] = true ->
  invoke name invoke_type (json_dumps payload) (world s) = (Ok resp, w') ->
  200 <= StatusCode resp < 300 ->
  json_loads (Payload resp) = Ok v ->
  invoke_lambda name payload invoke_type s
  = (Return (Response_put v Response_new),
     {| world := w';
        trace := trace s
                 ++ [{| request := lambda_invoke name invoke_type
                                     (json_dumps payload);
                        raised := None |}] |}).
Proof.
  intros Hsync E Hstatus Hv.
  assert (Hmode : str_in invoke_type ["DryRun"; "RequestResponse"; "Event"]
                  = true).
  { cbn in *. apply orb_true_iff in Hsync as [->|Hsync]; [reflexivity|].
    apply orb_true_iff in Hsync as [->|Hsync]; [|discriminate].
    now rewrite orb_true_r. }
  unfold invoke_lambda. rewrite Hmode. cbn [negb].
  unfold bind, perform. rewrite E. cbn [outcome_of raised_of].
  rewrite Hsync. unfold lift. rewrite Hv. cbn [outcome_of]. unfold ret.
  replace ((200 <=? StatusCode resp) && (StatusCode resp <? 300)) with true.
  - reflexivity.
  - symmetry. apply andb_true_iff. split; [apply Z.leb_le | apply Z.ltb_lt]; lia.
Qed.

(** C9.  For a POST on /contact whose body is a JSON object with the keys
    source, name, email and description, the handler formats the four lines
    "Source: ", "Name: ", "Mail: " and "Desc: " (each closed by a newline),
    invokes the notifications function once, synchronously, with that
    message as the payload entry of the request, and, the function having
    answered with a status in [200,300) and a JSON payload, the router
    returns the text of the response as success payload, with status 200. *)
Theorem contact_end_to_end (environ : list (string * string))
    (event : LambdaEvent) (s : state World) (name text : string) (d : dict)
    (source nm email description : value) (request_payload : string)
    (resp : InvokeOutput) (w' : World) (v : value) :
  verb event = "POST" ->
  path event = "/contact" ->
  env_get "LAMBDA_NOTIFICATIONS" environ = Ok name ->
  body event = Some text ->
  json_loads text = Ok (VDict d) ->
  dict_get "source" d = Some source ->
  dict_get "name" d = Some nm ->
  dict_get "email" d = Some email ->
  dict_get "description" d = Some description ->
  request_payload
  = json_dumps
      (VDict [("title", VStr "New /contact submission received");
              ("payload",
               VStr ("Source: " ++ format_field source ++ newline
                     ++ "Name: " ++ format_field nm ++ newline
                     ++ "Mail: " ++ format_field email ++ newline
                     ++ "Desc: " ++ format_field description ++ newline))]) ->
  invoke name "RequestResponse" request_payload (world s) = (Ok resp, w') ->
  200 <= StatusCode resp < 300 ->
  json_loads (Payload resp) = Ok v ->
  handler environ event s
  = (Return {| payload := Some (Response_text (Response_put v Response_new));
               error_payload := None;
               status := 200 |},
     {| world := w';
        trace := trace s
                 ++ [{| request := lambda_invoke name "RequestResponse"
                                     request_payload;
                        raised := None |}] |}).
Proof.
  intros Hverb Hpath Henv Hbody Hloads Hs Hn He Hd -> Hinvoke Hstatus Hv.
  unfold handler, dispatch. rewrite Hverb, Hpath.
  change (lookup_route ("POST" ++ " " ++ "/contact") (router_map environ))
    with (Some (contact environ)).
  cbv iota. unfold try_except.
  assert (Hrun : contact environ event s
                 = (Return (Response_text (Response_put v Response_new)),
                    {| world := w';
                       trace := trace s
                                ++ [{| request :=
                                         lambda_invoke name "RequestResponse"
                                           (json_dumps
                                              (VDict
                                                 [("title", VStr "New /contact submission received");
                                                  ("payload",
                                                   VStr ("Source: " ++ format_field source ++ newline
                                                         ++ "Name: " ++ format_field nm ++ newline
                                                         ++ "Mail: " ++ format_field email ++ newline
                                                         ++ "Desc: " ++ format_field description ++ newline))]));
                                       raised := None |}] |})).
  { unfold contact. rewrite bind_lift, Henv.
    destruct (contact_try_run (body event) s) as (o & E & _ & Hmsg).
    rewrite (bind_run _ _ _ _ _ E).
    rewrite (Hmsg (VDict d)
               ("Source: " ++ format_field source ++ newline
                ++ "Name: " ++ format_field nm ++ newline
                ++ "Mail: " ++ format_field email ++ newline
                ++ "Desc: " ++ format_field description ++ newline)).
    - erewrite bind_run;
        [|apply (invoke_lambda_success _ _ _ _ resp w' v);
          [reflexivity | exact Hinvoke | exact Hstatus | exact Hv]].
      reflexivity.
    - rewrite Hbody. exact Hloads.
    - unfold contact_message. now rewrite Hs, Hn, He, Hd. }
  erewrite bind_run; [|exact Hrun]. reflexivity.
Qed.

End Contact.

(** ** Runs of the helpers and of the API on the scripted world *)

Lemma publish_message_id_witness :
  fst (OnDouble.publish_to_sns_topic "arn:aws:sns:topic" "New post"
         (VDict [("url", VStr "https://a.l3x.in")])
         (start (HelperRuns.with_publishes [Ok HelperRuns.bare_ack])))
  = Raise (SystemExit "Missing MessageId in SNS response")
  /\ fst (OnDouble.publish_to_sns_topic "arn:aws:sns:topic" "New post"
            (VDict [("url", VStr "https://a.l3x.in")])
            (start (HelperRuns.with_publishes
                      [Ok [("MessageId", VStr "5e1c")]])))
     = Return (Some (VStr "5e1c")).
Proof.
  split.
  - apply (proj1 (@publish_message_id Double.World Double.boto3 Double.python
                    Double.utils "arn:aws:sns:topic" "New post"
                    (VDict [("url", VStr "https://a.l3x.in")])
                    (start (HelperRuns.with_publishes [Ok HelperRuns.bare_ack]))
                    HelperRuns.bare_ack
                    (Double.tick (HelperRuns.with_publishes []))
                    eq_refl)).
    reflexivity.
  - apply (proj2 (@publish_message_id Double.World Double.boto3 Double.python
                    Double.utils "arn:aws:sns:topic" "New post"
                    (VDict [("url", VStr "https://a.l3x.in")])
                    (start (HelperRuns.with_publishes
                              [Ok [("MessageId", VStr "5e1c")]]))
                    [("MessageId", VStr "5e1c")]
                    (Double.tick (HelperRuns.with_publishes []))
                    eq_refl)).
    reflexivity.
Defined.

(** C6, refuted as stated.  In the synchronous mode RequestResponse, a
    remote answer of status 500 whose payload is not JSON ends the call in
    the fault of [json.load], which is no Structured Failure and carries no
    status. *)
Lemma invoke_lambda_payload_fault :
  let run := OnDouble.invoke_lambda "notifications-pushover" (VDict [])
               "RequestResponse"
               (start (HelperRuns.with_invokes
                         [Ok {| StatusCode := 500; Payload := "" |}])) in
  fst run = Raise (Fault (JSONDecodeError "Expecting value"))
  /\ forall msg, fst run <> Raise (HandledError msg (Some 500)).
Proof. vm_compute. split; [reflexivity | discriminate]. Qed.

Lemma invoke_lambda_failures_witness :
  OnDouble.invoke_lambda "notifications-pushover" (VDict []) "Bogus"
    (start Double.world0)
  = (Raise (HandledError (VStr "invalid invoke_type: Bogus") (Some 400)),
     start Double.world0)
  /\ fst (OnDouble.invoke_lambda "notifications-pushover" (VDict []) "Event"
            (start (HelperRuns.with_invokes
                      [Ok {| StatusCode := 500; Payload := "" |}])))
     = Raise (HandledError
                (VStr ("lambda response: "
                       ++ Double.python.(str_of_invoke_output)
                            {| StatusCode := 500; Payload := "" |}))
                (Some 500))
  /\ fst (OnDouble.invoke_lambda "notifications-pushover" (VDict [])
            "RequestResponse"
            (start (HelperRuns.with_invokes
                      [Ok {| StatusCode := 500; Payload := "" |}])))
     = Raise (Fault (JSONDecodeError "Expecting value")).
Proof.
  split; [|split].
  - apply (proj1 (@invoke_lambda_failures Double.World Double.boto3
                    Double.python Double.utils "notifications-pushover"
                    (VDict []) "Bogus" (start Double.world0))).
    reflexivity.
  - apply (proj1 (proj2 (@invoke_lambda_failures Double.World Double.boto3
                           Double.python Double.utils "notifications-pushover"
                           (VDict []) "Event"
                           (start (HelperRuns.with_invokes
                                     [Ok {| StatusCode := 500;
                                            Payload := "" |}]))))
             {| StatusCode := 500; Payload := "" |}
             (Double.tick (HelperRuns.with_invokes []))).
    + reflexivity.
    + reflexivity.
    + cbn. lia.
    + left. reflexivity.
  - apply (proj2 (proj2 (@invoke_lambda_failures Double.World Double.boto3
                           Double.python Double.utils "notifications-pushover"
                           (VDict []) "RequestResponse"
                           (start (HelperRuns.with_invokes
                                     [Ok {| StatusCode := 500;
                                            Payload := "" |}]))))
             {| StatusCode := 500; Payload := "" |}
             (Double.tick (HelperRuns.with_invokes []))).
    + reflexivity.
    + reflexivity.
    + reflexivity.
Defined.

Lemma get_object_outcomes_witness :
  fst (OnDouble.get_object_from_s3_bucket "feed.xml" "blog"
         (start (HelperRuns.with_objects
                   [("blog", "feed.xml", [Byte.x3c; Byte.x3e])])))
  = Return [Byte.x3c; Byte.x3e]
  /\ fst (OnDouble.get_object_from_s3_bucket "missing.xml" "blog"
            (start (HelperRuns.with_objects
                      [("blog", "feed.xml", [Byte.x3c; Byte.x3e])])))
     = Raise (HandledError (VStr "Key missing.xml not found in bucket blog")
                           (Some 404)).
Proof.
  split.
  - apply (proj1 (@get_object_outcomes Double.World Double.boto3
                    "feed.xml" "blog"
                    (start (HelperRuns.with_objects
                              [("blog", "feed.xml", [Byte.x3c; Byte.x3e])]))
                    (Ok {| Body := [Byte.x3c; Byte.x3e] |})
                    (Double.tick (HelperRuns.with_objects
                                    [("blog", "feed.xml", [Byte.x3c; Byte.x3e])]))
                    eq_refl)
             {| Body := [Byte.x3c; Byte.x3e] |}).
    reflexivity.
  - apply (proj1 (proj2 (@get_object_outcomes Double.World Double.boto3
                           "missing.xml" "blog"
                           (start (HelperRuns.with_objects
                                     [("blog", "feed.xml", [Byte.x3c; Byte.x3e])]))
                           (Error Double.no_such_key)
                           (Double.tick (HelperRuns.with_objects
                                           [("blog", "feed.xml", [Byte.x3c; Byte.x3e])]))
                           eq_refl))
             "The specified key does not exist."
             ("An error occurred (NoSuchKey) when calling the GetObject operation: "
              ++ "The specified key does not exist.")).
    reflexivity.
Defined.

(** C8, refuted as stated.  The two raise sites of [contact] pass no status
    code: a body that is not JSON and a body without the key name both end
    in a Structured Failure whose [status_code] argument is absent. *)
Lemma contact_raises_without_status :
  fst (OnDouble.contact HelperRuns.environ
         (HelperRuns.contact_event (Some "not json")) (start Double.world0))
  = Raise (HandledError (VStr "JSON body is malformatted: Expecting value") None)
  /\ fst (OnDouble.contact HelperRuns.environ
            (HelperRuns.contact_event
               (Some ("{" ++ Double.quoted "source" ++ ":"
                      ++ Double.quoted "web" ++ "}")))
            (start Double.world0))
     = Raise (HandledError (VStr "Missing JSON key: 'name'") None).
Proof. vm_compute. split; reflexivity. Qed.

Lemma contact_end_to_end_witness :
  OnDouble.handler HelperRuns.environ
    (HelperRuns.contact_event (Some HelperRuns.contact_body))
    (start (HelperRuns.with_invokes
              [Ok {| StatusCode := 200;
                     Payload := Double.quoted "Message sent" |}]))
  = (Return {| payload := Some (VStr "Message sent");
               error_payload := None;
               status := 200 |},
     {| world := Double.tick (HelperRuns.with_invokes []);
        trace := [{| request := lambda_invoke "notifications-pushover"
                                  "RequestResponse" HelperRuns.contact_request;
                     raised := None |}] |}).
Proof.
  apply (@contact_end_to_end Double.World Double.boto3 Double.python
           Double.utils HelperRuns.environ
           (HelperRuns.contact_event (Some HelperRuns.contact_body))
           (start (HelperRuns.with_invokes
                     [Ok {| StatusCode := 200;
                            Payload := Double.quoted "Message sent" |}]))
           "notifications-pushover" HelperRuns.contact_body
           [("source", VStr "web"); ("name", VStr "A");
            ("email", VStr "a@x.com"); ("description", VStr "hi")]
           (VStr "web") (VStr "A") (VStr "a@x.com") (VStr "hi")
           HelperRuns.contact_request
           {| StatusCode := 200; Payload := Double.quoted "Message sent" |}
           (Double.tick (HelperRuns.with_invokes []))
           (VStr "Message sent"));
    try reflexivity.
  cbn. lia.
Defined.

(** * Further properties *)

(** ** The token parsed out of a conflict message *)

Lemma has_char_colon (s : string) : has_char ":"%char s = has_colon s.
Proof. induction s as [|c s IH]; [reflexivity|]. cbn. now rewrite IH. Qed.

Lemma has_colon_app_colon (text rest : string) :
  has_colon (text ++ String ":"%char rest) = true.
Proof.
  induction text as [|c text IH]; cbn; [reflexivity|].
  rewrite IH. apply orb_true_r.
Qed.

Lemma after_last_colon_app (text rest : string) :
  has_colon rest = false ->
  after_last_colon (text ++ String ":"%char rest) = rest.
Proof.
  intros Hr. induction text as [|c text IH]; cbn.
  - now rewrite Hr.
  - now rewrite has_colon_app_colon.
Qed.

Lemma after_last_colon_no_colon (s : string) :
  has_colon (after_last_colon s) = false.
Proof.
  induction s as [|c s IH]; [reflexivity|].
  cbn [after_last_colon]. destruct (has_colon s) eqn:Hs; [exact IH|].
  destruct (Ascii.eqb c ":"%char) eqn:Hc; [exact Hs|].
  cbn. now rewrite Hc, Hs.
Qed.

Lemma lstrip_no_char (c : ascii) (s : string) :
  has_char c s = false -> has_char c (lstrip s) = false.
Proof.
  induction s as [|a s IH]; [reflexivity|]. intros H.
  cbn [lstrip]. destruct (is_space a); [|exact H].
  cbn in H. apply orb_false_iff in H as [_ H]. now apply IH.
Qed.

Lemma rstrip_no_char (c : ascii) (s : string) :
  has_char c s = false -> has_char c (rstrip s) = false.
Proof.
  induction s as [|a s IH]; [reflexivity|]. intros H.
  cbn in H. apply orb_false_iff in H as [Ha H]. specialize (IH H).
  cbn [rstrip]. destruct (rstrip s) as [|b r].
  - destruct (is_space a); cbn; [reflexivity | now rewrite Ha].
  - cbn in *. now rewrite Ha, IH.
Qed.

Lemma lstrip_idempotent (s : string) : lstrip (lstrip s) = lstrip s.
Proof.
  induction s as [|c s IH]; [reflexivity|].
  cbn [lstrip]. destruct (is_space c) eqn:Hc; [exact IH|].
  cbn [lstrip]. now rewrite Hc.
Qed.

Lemma rstrip_idempotent (s : string) : rstrip (rstrip s) = rstrip s.
Proof.
  induction s as [|c s IH]; [reflexivity|].
  cbn [rstrip]. destruct (rstrip s) as [|b r] eqn:Hr.
  - destruct (is_space c) eqn:Hc; [reflexivity|].
    cbn [rstrip]. now rewrite Hc.
  - cbn [rstrip] in *. rewrite IH. reflexivity.
Qed.

Lemma rstrip_lstrip_fixed (s : string) :
  rstrip s = s -> rstrip (lstrip s) = lstrip s.
Proof.
  induction s as [|c s IH]; [reflexivity|]. intros H.
  cbn [lstrip]. destruct (is_space c) eqn:Hc; [|exact H].
  apply IH. cbn [rstrip] in H. destruct (rstrip s) as [|b r].
  - rewrite Hc in H. discriminate.
  - now injection H.
Qed.

(** X5.  The documented format round-trips: for a message made of any text,
    a colon, a space and a token that has no colon and no space at either
    end, the writer extracts exactly that token. *)
Theorem token_of_message_format (text token : string) :
  clean_token token = true ->
  token_of_message (text ++ ": " ++ token) = token.
Proof.
  unfold clean_token. intros H.
  apply andb_true_iff in H as [H Hr]. apply andb_true_iff in H as [Hc Hl].
  apply negb_true_iff in Hc. rewrite has_char_colon in Hc.
  apply String.eqb_eq in Hl, Hr.
  rewrite token_of_message_trailing.
  change (text ++ ": " ++ token)
    with (text ++ String ":"%char (String " "%char token)).
  rewrite after_last_colon_app by (cbn; exact Hc).
  unfold strip. cbn [rstrip]. rewrite Hr.
  destruct token as [|a token]; [reflexivity|].
  cbn [lstrip is_space]. cbn. exact Hl.
Qed.

Lemma token_of_message_format_witness :
  token_of_message
    ("The given sequenceToken is invalid. The next expected sequenceToken is"
     ++ ": " ++ "49590302938407202712")
  = "49590302938407202712".
Proof. apply token_of_message_format. reflexivity. Defined.

Lemma token_of_message_is_clean (msg : string) :
  clean_token (token_of_message msg) = true.
Proof.
  rewrite token_of_message_trailing. unfold clean_token, strip.
  rewrite lstrip_no_char
    by (apply rstrip_no_char; rewrite has_char_colon;
        apply after_last_colon_no_colon).
  rewrite lstrip_idempotent.
  rewrite rstrip_lstrip_fixed by apply rstrip_idempotent.
  now rewrite !String.eqb_refl.
Qed.

(** X6.  Whatever the message, the extracted token has no colon and no
    space at either end, and extracting again from the token gives the
    token back. *)
Theorem token_of_message_clean (msg : string) :
  clean_token (token_of_message msg) = true
  /\ token_of_message (token_of_message msg) = token_of_message msg.
Proof.
  assert (H := token_of_message_is_clean msg). split; [exact H|].
  unfold clean_token in H.
  apply andb_true_iff in H as [H Hr]. apply andb_true_iff in H as [Hc Hl].
  apply negb_true_iff in Hc. rewrite has_char_colon in Hc.
  apply String.eqb_eq in Hl, Hr.
  unfold token_of_message at 1.
  rewrite last_split_after_last_colon.
  assert (Ha : after_last_colon (token_of_message msg) = token_of_message msg).
  { rewrite <- last_split_after_last_colon, (split_no_colon _ Hc).
    reflexivity. }
  rewrite Ha. unfold strip. now rewrite Hr, Hl.
Qed.

(** ** More on the log writer *)

Lemma attempts_length g st ev tok n xs o :
  attempts g st ev tok n xs o ->
  (length xs <= n)%nat /\ (n <> 0%nat -> xs <> []).
Proof.
  induction 1; cbn; split; try lia; try discriminate.
Qed.

Lemma attempts_returned g st ev tok n xs o :
  attempts g st ev tok n xs o ->
  forall v, o = Return v -> n <> 0%nat ->
  v = Some (delivered g st)
  /\ exists pre x,
       xs = (pre ++ [x])%list
       /\ raised x = None
       /\ Forall (fun y => conflicted y = true) pre.
Proof.
  induction 1 as [tok|tok n|tok n c m t xs o Hc Ha IH|tok c m t Hc
                 |tok n c m t Hc|tok n f Hf];
    intros v E Hn; try discriminate.
  - congruence.
  - injection E as <-. split; [reflexivity|].
    exists [], (attempt g st ev tok None). repeat split. constructor.
  - destruct (IH v E) as (-> & pre & x & -> & Hx & Hpre); [discriminate|].
    split; [reflexivity|].
    exists (attempt g st ev tok (Some (ClientError c m t)) :: pre), x.
    repeat split; [exact Hx|].
    constructor; [exact Hc | exact Hpre].
Qed.

Lemma attempts_answered g st ev tok n xs o :
  attempts g st ev tok n xs o ->
  forall pre x,
    xs = (pre ++ [x])%list -> raised x = None ->
    o = Return (Some (delivered g st)).
Proof.
  induction 1 as [tok|tok n|tok n c m t xs o Hc Ha IH|tok c m t Hc
                 |tok n c m t Hc|tok n f Hf];
    intros pre x E Hx.
  - now destruct pre.
  - reflexivity.
  - destruct pre as [|a pre]; cbn in E.
    + injection E as _ ->.
      apply attempts_length in Ha as [_ Ha]. now elim Ha.
    + injection E as _ E. eapply IH; eassumption.
  - apply singleton_split in E as (_ & -> & _). discriminate.
  - apply singleton_split in E as (_ & -> & _). discriminate.
  - apply singleton_split in E as (_ & -> & _). discriminate.
Qed.

Lemma attempts_faulted g st ev tok n xs o :
  attempts g st ev tok n xs o ->
  forall pre x post f,
    xs = (pre ++ x :: post)%list ->
    raised x = Some f ->
    (forall code msg text, f <> ClientError code msg text) ->
    post = [] /\ o = Raise (Fault f).
Proof.
  induction 1 as [tok|tok n|tok n c m t xs o Hc Ha IH|tok c m t Hc
                 |tok n c m t Hc|tok n f0 Hf0];
    intros pre x post f E Hx Hf.
  - now destruct pre.
  - apply singleton_split in E as (_ & -> & _). discriminate.
  - destruct pre as [|a pre]; cbn in E.
    + injection E as <- _. cbn in Hx. injection Hx as <-.
      now elim (Hf c m t).
    + injection E as _ E. eapply IH; eassumption.
  - apply singleton_split in E as (_ & -> & _). cbn in Hx.
    injection Hx as <-. now elim (Hf c m t).
  - apply singleton_split in E as (_ & -> & _). cbn in Hx.
    injection Hx as <-. now elim (Hf c m t).
  - apply singleton_split in E as (_ & -> & ->). cbn in Hx.
    injection Hx as ->. auto.
Qed.

Lemma attempts_gave_up g st ev tok n xs o :
  attempts g st ev tok n xs o ->
  o = Raise exhausted ->
  length xs = n /\ Forall (fun y => conflicted y = true) xs.
Proof.
  induction 1 as [tok|tok n|tok n c m t xs o Hc Ha IH|tok c m t Hc
                 |tok n c m t Hc|tok n f Hf];
    intros E; try discriminate.
  - destruct (IH E) as [Hlen Hall]. split; [cbn; now rewrite Hlen|].
    constructor; [exact Hc | exact Hall].
  - split; [reflexivity|]. repeat constructor. exact Hc.
Qed.

Section WriterMore.
Context {World : Type} {B : Boto3 World} {P : Python}.

(** X1.  A call of the writer with a non-empty message sends at least one
    and at most three appends, whatever the service answers; with an empty
    message it sends none. *)
Theorem writer_call_bounds (g st : string) (message : dict) (w : World) :
  if dict_truthy message then
    (1 <= length (trace (snd (send_event_to_logstream g st message (start w))))
     <= 3)%nat
  else
    trace (snd (send_event_to_logstream g st message (start w))) = [].
Proof.
  destruct (dict_truthy message) eqn:Hm.
  - destruct (send_event_attempts g st message w Hm) as (ms & _ & Ha).
    apply attempts_length in Ha as [Hle Hne]. split; [|exact Hle].
    destruct (trace (snd (send_event_to_logstream g st message (start w)))).
    + now elim Hne.
    + cbn. lia.
  - now apply send_event_trace_nil.
Qed.

(** X2.  The writer returns exactly when its last append was accepted: a
    returned value is always the delivery text naming the group and the
    stream (never [None]), every append before the accepted one was a
    conflict, and a run whose last append was accepted does return. *)
Theorem writer_delivery (g st : string) (message : dict) (w : World) :
  (forall v,
     fst (send_event_to_logstream g st message (start w)) = Return v ->
     v = Some ("Successfully delivered event content to CloudWatch LogGroup "
               ++ g ++ " Stream " ++ st)
     /\ exists pre x,
          trace (snd (send_event_to_logstream g st message (start w)))
          = (pre ++ [x])%list
          /\ raised x = None
          /\ Forall (fun y => conflicted y = true) pre)
  /\ (forall pre x,
        trace (snd (send_event_to_logstream g st message (start w)))
        = (pre ++ [x])%list ->
        raised x = None ->
        fst (send_event_to_logstream g st message (start w))
        = Return (Some ("Successfully delivered event content to CloudWatch LogGroup "
                        ++ g ++ " Stream " ++ st))).
Proof.
  destruct (dict_truthy message) eqn:Hm.
  - destruct (send_event_attempts g st message w Hm) as (ms & _ & Ha).
    split.
    + intros v E.
      exact (attempts_returned _ _ _ _ _ _ _ Ha v E ltac:(discriminate)).
    + intros pre x E Hx.
      exact (attempts_answered _ _ _ _ _ _ _ Ha pre x E Hx).
  - split.
    + intros v E. destruct message; [discriminate E | discriminate Hm].
    + intros pre x E.
      rewrite (send_event_trace_nil g st message w Hm) in E. now destruct pre.
Qed.

(** X3.  An append that fails with a fault other than a client error (a
    connection error, say) is the last exchange of the run, and the run
    raises that very fault: it is neither retried nor wrapped. *)
Theorem writer_fault_propagates (g st : string) (message : dict) (w : World)
    (pre post : list exchange) (x : exchange) (f : fault) :
  trace (snd (send_event_to_logstream g st message (start w)))
  = (pre ++ x :: post)%list ->
  raised x = Some f ->
  (forall code msg text, f <> ClientError code msg text) ->
  post = []
  /\ fst (send_event_to_logstream g st message (start w)) = Raise (Fault f).
Proof.
  intros E Hx Hf.
  destruct (dict_truthy message) eqn:Hm.
  - destruct (send_event_attempts g st message w Hm) as (ms & _ & Ha).
    exact (attempts_faulted _ _ _ _ _ _ _ Ha _ _ _ _ E Hx Hf).
  - rewrite (send_event_trace_nil g st message w Hm) in E. now destruct pre.
Qed.

(** X4.  The failure "after 3 retrials" is raised only at the end of a run
    of exactly three appends that all failed with a conflict code. *)
Theorem writer_gave_up (g st : string) (message : dict) (w : World) :
  fst (send_event_to_logstream g st message (start w))
  = Raise (HandledError
             (VStr "Failed sending event content to CloudWatch Logs after 3 retrials")
             (Some 500)) ->
  length (trace (snd (send_event_to_logstream g st message (start w)))) = 3%nat
  /\ Forall (fun y => conflicted y = true)
       (trace (snd (send_event_to_logstream g st message (start w)))).
Proof.
  intros E.
  destruct (dict_truthy message) eqn:Hm.
  - destruct (send_event_attempts g st message w Hm) as (ms & _ & Ha).
    exact (attempts_gave_up _ _ _ _ _ _ _ Ha E).
  - destruct message; [discriminate E | discriminate Hm].
Qed.

End WriterMore.

Lemma writer_delivery_witness :
  let run := OnDouble.send_event_to_logstream "reports" "twitter"
               WriterRuns.note
               (start (WriterRuns.with_puts
                         [WriterRuns.invalid_token "t1"; Ok tt])) in
  fst run
  = Return (Some "Successfully delivered event content to CloudWatch LogGroup reports Stream twitter")
  /\ WriterRuns.tokens (trace (snd run)) = [None; Some "t1"].
Proof.
  split; [|vm_compute; reflexivity].
  apply (proj2 (@writer_delivery Double.World Double.boto3 Double.python
                  "reports" "twitter" WriterRuns.note
                  (WriterRuns.with_puts [WriterRuns.invalid_token "t1"; Ok tt]))
           [attempt "reports" "twitter" WriterRuns.record None
              (raised_of (WriterRuns.invalid_token "t1"))]
           (attempt "reports" "twitter" WriterRuns.record (Some "t1") None)).
  - vm_compute. reflexivity.
  - reflexivity.
Defined.

Lemma writer_fault_propagates_witness :
  @nil exchange = []
  /\ fst (OnDouble.send_event_to_logstream "reports" "twitter"
            WriterRuns.note (start (WriterRuns.with_puts [])))
     = Raise (Fault (OtherError "EndpointConnectionError")).
Proof.
  apply (@writer_fault_propagates Double.World Double.boto3 Double.python
           "reports" "twitter" WriterRuns.note (WriterRuns.with_puts [])
           [] [] (attempt "reports" "twitter" WriterRuns.record None
                    (Some (OtherError "EndpointConnectionError")))
           (OtherError "EndpointConnectionError")).
  - vm_compute. reflexivity.
  - reflexivity.
  - discriminate.
Defined.

Lemma writer_gave_up_witness :
  length (trace (snd (OnDouble.send_event_to_logstream "reports" "twitter"
                        WriterRuns.note (start WriterRuns.four_conflicts))))
  = 3%nat
  /\ Forall (fun y => conflicted y = true)
       (trace (snd (OnDouble.send_event_to_logstream "reports" "twitter"
                      WriterRuns.note (start WriterRuns.four_conflicts)))).
Proof.
  apply (@writer_gave_up Double.World Double.boto3 Double.python
           "reports" "twitter" WriterRuns.note WriterRuns.four_conflicts).
  vm_compute. reflexivity.
Defined.

(** ** More on the invocation and publication helpers *)

Section HelpersMore.
Context {World : Type} {B : Boto3 World} {P : Python} {U : Utils}.

Lemma in_range_true (code : Z) :
  200 <= code < 300 -> (200 <=? code) && (code <? 300) = true.
Proof.
  intros H. apply andb_true_iff. split; [apply Z.leb_le | apply Z.ltb_lt]; lia.
Qed.

Lemma in_range_false (code : Z) :
  ~ (200 <= code < 300) -> (200 <=? code) && (code <? 300) = false.
Proof.
  intros H. apply andb_false_iff.
  destruct (200 <=? code) eqn:H1; [right | now left].
  apply Z.leb_le in H1. apply Z.ltb_ge. lia.
Qed.

(** With a recognized mode, the state after [invoke_lambda] is the state
    before plus the one exchange with the Lambda service. *)
Lemma invoke_lambda_state (name : string) (payload : value)
    (invoke_type : string) (s : state World) :
  str_in invoke_type ["DryRun"; "RequestResponse"; "Event"] = true ->
  snd (invoke_lambda name payload invoke_type s)
  = {| world := snd (invoke name invoke_type (json_dumps payload) (world s));
       trace := trace s
                ++ [{| request := lambda_invoke name invoke_type
                                    (json_dumps payload);
                       raised := raised_of
                                   (fst (invoke name invoke_type
                                           (json_dumps payload) (world s))) |}] |}.
Proof.
  intros Hmode. unfold invoke_lambda. rewrite Hmode. cbn [negb].
  unfold bind, perform.
  destruct (invoke name invoke_type (json_dumps payload) (world s))
    as [[resp|f] w']; cbn [outcome_of fst snd]; [|reflexivity].
  destruct (str_in invoke_type ["DryRun"; "RequestResponse"]).
  - unfold lift. destruct (json_loads (Payload resp)); cbn [outcome_of];
      [|reflexivity].
    unfold ret, raise.
    destruct (negb ((200 <=? StatusCode resp) && (StatusCode resp <? 300)));
      reflexivity.
  - unfold ret, raise.
    destruct (negb ((200 <=? StatusCode resp) && (StatusCode resp <? 300)));
      reflexivity.
Qed.

Lemma invoke_lambda_fault (name : string) (payload : value)
    (invoke_type : string) (s : state World) (f : fault) :
  str_in invoke_type ["DryRun"; "RequestResponse"; "Event"] = true ->
  fst (invoke name invoke_type (json_dumps payload) (world s)) = Error f ->
  fst (invoke_lambda name payload invoke_type s) = Raise (Fault f).
Proof.
  intros Hmode E. unfold invoke_lambda. rewrite Hmode. cbn [negb].
  unfold bind, perform.
  destruct (invoke name invoke_type (json_dumps payload) (world s))
    as [r w']. cbn [fst] in E. subst r. reflexivity.
Qed.

(** A synchronous invocation answered with a JSON payload and a status
    outside [200,300). *)
Lemma invoke_lambda_rejected (name : string) (payload : value)
    (invoke_type : string) (s : state World) (resp : InvokeOutput)
    (w' : World) (v : value) :
  str_in invoke_type ["DryRun"; "RequestResponse"] = true ->
  invoke name invoke_type (json_dumps payload) (world s) = (Ok resp, w') ->
  ~ (200 <= StatusCode resp < 300) ->
  json_loads (Payload resp) = Ok v ->
  fst (invoke_lambda name payload invoke_type s)
  = Raise (HandledError
             (VStr ("lambda response: " ++ str_of_invoke_output resp))
             (Some (StatusCode resp))).
Proof.
  intros Hsync E Hstatus Hv.
  assert (Hmode : str_in invoke_type ["DryRun"; "RequestResponse"; "Event"]
                  = true).
  { cbn in *. apply orb_true_iff in Hsync as [->|Hsync]; [reflexivity|].
    apply orb_true_iff in Hsync as [->|Hsync]; [|discriminate].
    now rewrite orb_true_r. }
  unfold invoke_lambda. rewrite Hmode. cbn [negb].
  unfold bind, perform. rewrite E. cbn [outcome_of].
  rewrite Hsync. unfold lift. rewrite Hv. cbn [outcome_of]. unfold ret.
  now rewrite (in_range_false _ Hstatus).
Qed.

(** X7.  With a recognized mode, [invoke_lambda] makes exactly one network
    call, whatever its outcome: the invocation of the named function in the
    given mode with the serialized payload.  A fault of that call is raised
    as it is. *)
Theorem invoke_lambda_one_call (name : string) (payload : value)
    (invoke_type : string) (s : state World) :
  str_in invoke_type ["DryRun"; "RequestResponse"; "Event"] = true ->
  (exists f,
     trace (snd (invoke_lambda name payload invoke_type s))
     = (trace s
        ++ [{| request := lambda_invoke name invoke_type (json_dumps payload);
               raised := f |}])%list)
  /\ (forall f,
        fst (invoke name invoke_type (json_dumps payload) (world s)) = Error f ->
        fst (invoke_lambda name payload invoke_type s) = Raise (Fault f)).
Proof.
  intros Hmode. split.
  - rewrite (invoke_lambda_state _ _ _ _ Hmode). eexists. reflexivity.
  - intros f. now apply invoke_lambda_fault.
Qed.

(** X8.  When the remote status is in [200,300): in the mode Event the
    payload of the answer is not read and the response returned is a fresh,
    empty one; in the modes DryRun and RequestResponse the response holds
    the deserialized payload. *)
Theorem invoke_lambda_returns (name : string) (payload : value)
    (invoke_type : string) (s : state World) (resp : InvokeOutput)
    (w' : World) :
  invoke name invoke_type (json_dumps payload) (world s) = (Ok resp, w') ->
  200 <= StatusCode resp < 300 ->
  (invoke_type = "Event" ->
   fst (invoke_lambda name payload invoke_type s) = Return Response_new)
  /\ (forall v,
        str_in invoke_type ["DryRun"; "RequestResponse"] = true ->
        json_loads (Payload resp) = Ok v ->
        fst (invoke_lambda name payload invoke_type s)
        = Return (Response_put v Response_new)).
Proof.
  intros E Hstatus. split.
  - intros ->. unfold invoke_lambda. cbn [str_in String.eqb Ascii.eqb
                                          Bool.eqb orb negb].
    unfold bind, perform. rewrite E. cbn [outcome_of]. unfold ret.
    now rewrite (in_range_true _ Hstatus).
  - intros v Hsync Hv.
    now rewrite (invoke_lambda_success _ _ _ _ _ _ _ Hsync E Hstatus Hv).
Qed.

(** X9.  [publish_to_sns_topic] makes exactly one network call, the
    publication of the serialized content with the subject on the topic,
    and a fault of that call is raised as it is (it is no hard exit). *)
Theorem publish_one_call (sns_topic subject : string) (content : value)
    (s : state World) :
  (exists f,
     trace (snd (publish_to_sns_topic sns_topic subject content s))
     = (trace s
        ++ [{| request := sns_publish sns_topic (json_dumps content) subject;
               raised := f |}])%list)
  /\ (forall f,
        fst (publish sns_topic (json_dumps content) subject (world s))
        = Error f ->
        fst (publish_to_sns_topic sns_topic subject content s)
        = Raise (Fault f)).
Proof.
  unfold publish_to_sns_topic, bind, perform.
  destruct (publish sns_topic (json_dumps content) subject (world s))
    as [[ack|f0] w']; cbn [outcome_of fst snd]; split.
  - destruct (dict_get "MessageId" ack); eexists; reflexivity.
  - discriminate.
  - eexists. reflexivity.
  - now intros f [= ->].
Qed.

End HelpersMore.

Lemma invoke_lambda_one_call_witness :
  (exists f,
     trace (snd (OnDouble.invoke_lambda "notifications-pushover" (VDict [])
                   "DryRun" (start Double.world0)))
     = [{| request := lambda_invoke "notifications-pushover" "DryRun" "{}";
           raised := f |}])
  /\ fst (OnDouble.invoke_lambda "notifications-pushover" (VDict [])
            "DryRun" (start Double.world0))
     = Raise (Fault (OtherError "EndpointConnectionError")).
Proof.
  destruct (@invoke_lambda_one_call Double.World Double.boto3 Double.python
              Double.utils "notifications-pushover" (VDict []) "DryRun"
              (start Double.world0) eq_refl) as [Hone Hfault].
  split; [exact Hone|]. apply Hfault. reflexivity.
Defined.

Lemma invoke_lambda_returns_witness :
  fst (OnDouble.invoke_lambda "publish-to-social" (VDict []) "Event"
         (start (HelperRuns.with_invokes
                   [Ok {| StatusCode := 202; Payload := "" |}])))
  = Return None
  /\ fst (OnDouble.invoke_lambda "publish-to-social" (VDict [])
            "RequestResponse"
            (start (HelperRuns.with_invokes
                      [Ok {| StatusCode := 200; Payload := "[1, 2]" |}])))
     = Return (Some (VList [VInt 1; VInt 2])).
Proof.
  split.
  - apply (proj1 (@invoke_lambda_returns Double.World Double.boto3
                    Double.python Double.utils "publish-to-social" (VDict [])
                    "Event"
                    (start (HelperRuns.with_invokes
                              [Ok {| StatusCode := 202; Payload := "" |}]))
                    {| StatusCode := 202; Payload := "" |}
                    (Double.tick (HelperRuns.with_invokes []))
                    eq_refl ltac:(cbn; lia))).
    reflexivity.
  - apply (proj2 (@invoke_lambda_returns Double.World Double.boto3
                    Double.python Double.utils "publish-to-social" (VDict [])
                    "RequestResponse"
                    (start (HelperRuns.with_invokes
                              [Ok {| StatusCode := 200; Payload := "[1, 2]" |}]))
                    {| StatusCode := 200; Payload := "[1, 2]" |}
                    (Double.tick (HelperRuns.with_invokes []))
                    eq_refl ltac:(cbn; lia))).
    + reflexivity.
    + reflexivity.
Defined.

Lemma publish_one_call_witness :
  fst (OnDouble.publish_to_sns_topic "arn:aws:sns:topic" "New post"
         (VDict []) (start Double.world0))
  = Raise (Fault (OtherError "EndpointConnectionError")).
Proof.
  apply (proj2 (@publish_one_call Double.World Double.boto3 Double.python
                  Double.utils "arn:aws:sns:topic" "New post" (VDict [])
                  (start Double.world0))).
  reflexivity.
Defined.

(** ** More on the contact handler *)

Section ContactMore.
Context {World : Type} {B : Boto3 World} {P : Python} {U : Utils}.

(** What the [try] block makes of a fault of the loading or of the
    formatting. *)
Lemma contact_try_error (body : option string) (s : state World) (f : fault) :
  loads_body body = Error f
  \/ (exists loaded,
        loads_body body = Ok loaded /\ contact_message loaded = Error f) ->
  contact_try body s
  = (match f with
     | TypeError text | JSONDecodeError text =>
         Raise (HandledError (VStr ("JSON body is malformatted: " ++ text))
                             None)
     | KeyError k =>
         Raise (HandledError (VStr ("Missing JSON key: " ++ str_of_KeyError k))
                             None)
     | _ => Raise (Fault f)
     end, s).
Proof.
  unfold contact_try, try_except. rewrite bind_lift.
  intros [-> | (loaded & -> & Hm)].
  - destruct f; reflexivity.
  - unfold lift. rewrite Hm. destruct f; reflexivity.
Qed.

Lemma contact_message_not_mapping (v : value) :
  (forall d, v <> VDict d) ->
  exists text, contact_message v = Error (TypeError text).
Proof.
  intros Hv. destruct v; try (eexists; reflexivity). now elim (Hv d).
Qed.

Lemma contact_message_missing (d : dict) (k : string) :
  first_missing d = Some k -> contact_message (VDict d) = Error (KeyError k).
Proof.
  unfold first_missing, contact_message. cbn [find].
  destruct (dict_get "source" d); [|now intros [= <-]].
  destruct (dict_get "name" d); [|now intros [= <-]].
  destruct (dict_get "email" d); [|now intros [= <-]].
  destruct (dict_get "description" d); [discriminate | now intros [= <-]].
Qed.

Lemma snd_then_ret {A C} (m : M World A) (f : A -> C) (s : state World) :
  snd ((x <- m ;; ret (f x)) s) = snd (m s).
Proof. unfold bind, ret. destruct (m s) as [[a|e] s']; reflexivity. Qed.

Lemma fst_then_ret_raise {A C} (m : M World A) (f : A -> C) (s : state World)
    (e : exn) :
  fst (m s) = Raise e -> fst ((x <- m ;; ret (f x)) s) = Raise e.
Proof.
  unfold bind, ret. destruct (m s) as [[a|e'] s']; cbn; congruence.
Qed.

(** X10.  [contact] makes at most one network call, and the only call it
    ever makes is the synchronous (RequestResponse) invocation of the
    function named by LAMBDA_NOTIFICATIONS. *)
Theorem contact_calls (environ : list (string * string))
    (event : LambdaEvent) (s : state World) :
  trace (snd (contact environ event s)) = trace s
  \/ exists name payload f,
       env_get "LAMBDA_NOTIFICATIONS" environ = Ok name
       /\ trace (snd (contact environ event s))
          = (trace s
             ++ [{| request := lambda_invoke name "RequestResponse" payload;
                    raised := f |}])%list.
Proof.
  unfold contact. rewrite bind_lift.
  destruct (env_get "LAMBDA_NOTIFICATIONS" environ) as [name|f];
    [|now left].
  destruct (contact_try_run (body event) s) as (o & E & _ & _).
  rewrite (bind_run _ _ _ _ _ E).
  destruct o as [msg|e]; [|now left].
  right. rewrite snd_then_ret, invoke_lambda_state by reflexivity.
  do 3 eexists. split; reflexivity.
Qed.

(** X11.  With LAMBDA_NOTIFICATIONS set, a body that is null, that is not
    JSON, or that is JSON but not an object ends [contact] in a Structured
    Failure "JSON body is malformatted: ..." without status code, and the
    state is as it was: nothing was invoked. *)
Theorem contact_malformed_body (environ : list (string * string))
    (event : LambdaEvent) (s : state World) (name : string) :
  env_get "LAMBDA_NOTIFICATIONS" environ = Ok name ->
  body event = None
  \/ (exists text t,
        body event = Some text /\ json_loads text = Error (JSONDecodeError t))
  \/ (exists text v,
        body event = Some text /\ json_loads text = Ok v
        /\ forall d, v <> VDict d) ->
  exists t,
    contact environ event s
    = (Raise (HandledError (VStr ("JSON body is malformatted: " ++ t)) None),
       s).
Proof.
  intros Henv Hbody. unfold contact. rewrite bind_lift, Henv.
  destruct Hbody as [Hb | [(text & t & Hb & Hl) | (text & v & Hb & Hl & Hv)]].
  - eexists. erewrite bind_run;
      [|apply contact_try_error; left; rewrite Hb; reflexivity].
    reflexivity.
  - exists t. erewrite bind_run;
      [|apply contact_try_error; left; rewrite Hb; exact Hl].
    reflexivity.
  - destruct (contact_message_not_mapping v Hv) as [t Ht]. exists t.
    erewrite bind_run;
      [|apply contact_try_error; right; exists v; rewrite Hb; split;
        [exact Hl | exact Ht]].
    reflexivity.
Qed.

(** X12.  With LAMBDA_NOTIFICATIONS set and a JSON object as body, a
    missing key ends [contact] in the Structured Failure
    "Missing JSON key: 'k'" without status code, where k is the first
    missing key in the order source, name, email, description; the state is
    as it was: nothing was invoked. *)
Theorem contact_missing_key (environ : list (string * string))
    (event : LambdaEvent) (s : state World) (name text k : string) (d : dict) :
  env_get "LAMBDA_NOTIFICATIONS" environ = Ok name ->
  body event = Some text ->
  json_loads text = Ok (VDict d) ->
  first_missing d = Some k ->
  contact environ event s
  = (Raise (HandledError (VStr ("Missing JSON key: '" ++ k ++ "'")) None), s).
Proof.
  intros Henv Hb Hl Hk. unfold contact. rewrite bind_lift, Henv.
  erewrite bind_run;
    [|apply contact_try_error; right; exists (VDict d); rewrite Hb; split;
      [exact Hl | exact (contact_message_missing d k Hk)]].
  reflexivity.
Qed.

(** X13.  When the notifications function answers the invocation of
    [contact] with a JSON payload and a status outside [200,300), [contact]
    fails with a Structured Failure that carries that remote status. *)
Theorem contact_remote_status (environ : list (string * string))
    (event : LambdaEvent) (s : state World) (name msg : string)
    (loaded v : value) (resp : InvokeOutput) (w' : World) :
  env_get "LAMBDA_NOTIFICATIONS" environ = Ok name ->
  loads_body (body event) = Ok loaded ->
  contact_message loaded = Ok msg ->
  invoke name "RequestResponse"
    (json_dumps (VDict [("title", VStr "New /contact submission received");
                        ("payload", VStr msg)]))
    (world s)
  = (Ok resp, w') ->
  ~ (200 <= StatusCode resp < 300) ->
  json_loads (Payload resp) = Ok v ->
  fst (contact environ event s)
  = Raise (HandledError
             (VStr ("lambda response: " ++ str_of_invoke_output resp))
             (Some (StatusCode resp))).
Proof.
  intros Henv Hl Hm Hi Hstatus Hv. unfold contact. rewrite bind_lift, Henv.
  destruct (contact_try_run (body event) s) as (o & E & _ & Hmsg).
  rewrite (bind_run _ _ _ _ _ E), (Hmsg loaded msg Hl Hm).
  apply fst_then_ret_raise.
  now apply (invoke_lambda_rejected _ _ _ _ resp w' v).
Qed.

End ContactMore.

Lemma contact_malformed_body_witness :
  exists t,
    OnDouble.contact HelperRuns.environ (HelperRuns.contact_event None)
      (start Double.world0)
    = (Raise (HandledError (VStr ("JSON body is malformatted: " ++ t)) None),
       start Double.world0).
Proof.
  apply (@contact_malformed_body Double.World Double.boto3 Double.python
           Double.utils HelperRuns.environ (HelperRuns.contact_event None)
           (start Double.world0) "notifications-pushover").
  - reflexivity.
  - left. reflexivity.
Defined.

Lemma contact_missing_key_witness :
  OnDouble.contact HelperRuns.environ
    (HelperRuns.contact_event
       (Some ("{" ++ Double.quoted "name" ++ ":" ++ Double.quoted "A" ++ ","
              ++ Double.quoted "source" ++ ":" ++ Double.quoted "web" ++ "}")))
    (start Double.world0)
  = (Raise (HandledError (VStr "Missing JSON key: 'email'") None),
     start Double.world0).
Proof.
  apply (@contact_missing_key Double.World Double.boto3 Double.python
           Double.utils HelperRuns.environ
           (HelperRuns.contact_event
              (Some ("{" ++ Double.quoted "name" ++ ":" ++ Double.quoted "A"
                     ++ "," ++ Double.quoted "source" ++ ":"
                     ++ Double.quoted "web" ++ "}")))
           (start Double.world0)
           "notifications-pushover"
           ("{" ++ Double.quoted "name" ++ ":" ++ Double.quoted "A"
            ++ "," ++ Double.quoted "source" ++ ":"
            ++ Double.quoted "web" ++ "}")
           "email"
           [("name", VStr "A"); ("source", VStr "web")]);
    reflexivity.
Defined.

Lemma contact_remote_status_witness :
  fst (OnDouble.contact HelperRuns.environ
         (HelperRuns.contact_event (Some HelperRuns.contact_body))
         (start (HelperRuns.with_invokes
                   [Ok {| StatusCode := 502; Payload := "{}" |}])))
  = Raise (HandledError
             (VStr ("lambda response: "
                    ++ Double.python.(str_of_invoke_output)
                         {| StatusCode := 502; Payload := "{}" |}))
             (Some 502)).
Proof.
  apply (@contact_remote_status Double.World Double.boto3 Double.python
           Double.utils HelperRuns.environ
           (HelperRuns.contact_event (Some HelperRuns.contact_body))
           (start (HelperRuns.with_invokes
                     [Ok {| StatusCode := 502; Payload := "{}" |}]))
           "notifications-pushover"
           ("Source: web" ++ newline ++ "Name: A" ++ newline
            ++ "Mail: a@x.com" ++ newline ++ "Desc: hi" ++ newline)
           (VDict [("source", VStr "web"); ("name", VStr "A");
                   ("email", VStr "a@x.com"); ("description", VStr "hi")])
           (VDict [])
           {| StatusCode := 502; Payload := "{}" |}
           (Double.tick (HelperRuns.with_invokes [])));
    try reflexivity.
  cbn. lia.
Defined.

(** ** Reading the log streams *)



Section Reads.
Variable log_group : string.

Definition read (stream : string) (f : option fault) : exchange :=
  {| request := logs_get_log_events log_group stream; raised := f |}.

(** The runs of the comprehension of [read_all_log_streams]: the streams
    still to read, the mapping built so far, the exchanges and the
    outcome. *)
Inductive reads : list string -> dict -> list exchange -> outcome dict -> Prop :=
| reads_end acc :
    reads [] acc [] (Return acc)
| reads_next stream rest acc events xs o :
    reads rest (dict_set stream events acc) xs o ->
    reads (stream :: rest) acc (read stream None :: xs) o
| reads_no_events stream rest acc :
    reads (stream :: rest) acc [read stream None]
      (Raise (Fault (KeyError "events")))
| reads_fault stream rest acc f :
    reads (stream :: rest) acc [read stream (Some f)] (Raise (Fault f)).


Lemma reads_faulted names acc xs o :
  reads names acc xs o ->
  forall pre x post f,
    xs = (pre ++ x :: post)%list -> raised x = Some f ->
    post = [] /\ o = Raise (Fault f).
Proof.
  induction 1 as [acc|stream rest acc events xs o Hr IH| |];
    intros pre x post f0 E Hx.
  - now destruct pre.
  - destruct pre as [|a pre]; cbn in E.
    + injection E as <- _. discriminate.
    + injection E as _ E. eapply IH; eassumption.
  - apply singleton_split in E as (_ & -> & _). discriminate.
  - apply singleton_split in E as (_ & -> & ->). cbn in Hx.
    injection Hx as ->. auto.
Qed.

End Reads.

Section LogsMore.
Context {World : Type} {B : Boto3 World}.

Lemma read_log_stream_run (g stream : string) (s : state World) :
  read_log_stream g stream s
  = let (r, w') := get_log_events g stream (world s) in
    (match r with
     | Ok resp =>
         match dict_get "events" resp with
         | Some events => Return events
         | None => Raise (Fault (KeyError "events"))
         end
     | Error f => Raise (Fault f)
     end,
     {| world := w';
        trace := trace s ++ [read g stream (raised_of r)] |}).
Proof.
  unfold read_log_stream, bind, perform, read.
  destruct (get_log_events g stream (world s)) as [[resp|f] w'];
    cbn [outcome_of raised_of]; [|reflexivity].
  destruct (dict_get "events" resp); reflexivity.
Qed.

Lemma read_streams_reads (g : string) (names : list string) :
  forall (acc : dict) (s : state World),
  exists xs,
    trace (snd (read_streams g names acc s)) = (trace s ++ xs)%list
    /\ reads g names acc xs (fst (read_streams g names acc s)).
Proof.
  induction names as [|stream rest IH]; intros acc s.
  - exists []. cbn. rewrite app_nil_r. split; [reflexivity | constructor].
  - cbn [read_streams]. unfold bind. rewrite read_log_stream_run.
    destruct (get_log_events g stream (world s)) as [[resp|f] w'];
      cbn [raised_of].
    + destruct (dict_get "events" resp) as [events|].
      * match goal with
        | |- context [read_streams g rest ?a ?s1] =>
            destruct (IH a s1) as (xs & Ht & Hr)
        end.
        eexists. split.
        -- rewrite Ht. cbn [trace]. rewrite <- app_assoc. reflexivity.
        -- econstructor. exact Hr.
      * eexists. split; [reflexivity | constructor].
    + eexists. split; [reflexivity | constructor].
Qed.

(** The exchange with which [read_all_log_streams] lists the streams. *)
Definition listing (g : string) (f : option fault) : exchange :=
  {| request := logs_describe_log_streams g; raised := f |}.

(** The run of [read_all_log_streams] from a fresh trace: the listing, then
    the reads. *)
Lemma read_all_log_streams_run (g : string) (w : World) :
  (exists f,
     trace (snd (read_all_log_streams g (start w))) = [listing g (Some f)]
     /\ fst (read_all_log_streams g (start w)) = Raise (Fault f))
  \/ (exists f,
        trace (snd (read_all_log_streams g (start w))) = [listing g None]
        /\ fst (read_all_log_streams g (start w)) = Raise (Fault f))
  \/ (exists names xs o,
        trace (snd (read_all_log_streams g (start w))) = listing g None :: xs
        /\ reads g names [] xs o
        /\ fst (read_all_log_streams g (start w))
           = match o with
             | Return d => Return (VDict d)
             | Raise e => Raise e
             end).
Proof.
  unfold read_all_log_streams, bind, perform, start. cbn [world trace app].
  destruct (describe_log_streams g w) as [[resp|f] w'];
    cbn [outcome_of raised_of]; [|left; eexists; split; reflexivity].
  right.
  destruct (dict_get "logStreams" resp) as [[| | | | |streams|]|];
    try (left; eexists; split; reflexivity).
  unfold lift. destruct (stream_names streams) as [names|f];
    cbn [outcome_of]; [|left; eexists; split; reflexivity].
  right.
  match goal with
  | |- context [read_streams g names [] ?s1] =>
      destruct (read_streams_reads g names [] s1) as (xs & Ht & Hr);
      destruct (read_streams g names [] s1) as [o s2] eqn:E
  end.
  cbn [fst snd trace app] in *.
  exists names, xs, o. split; [|split].
  - destruct o; cbn; exact Ht.
  - exact Hr.
  - destruct o; reflexivity.
Qed.


(** X15.  [read_all_log_streams] gives no partial result: a network call
    that raises a fault is the last call of the run (no further stream is
    read) and the run raises that fault as it is. *)
Theorem read_all_log_streams_fails_fast (g : string) (w : World)
    (pre post : list exchange) (x : exchange) (f : fault) :
  trace (snd (read_all_log_streams g (start w))) = (pre ++ x :: post)%list ->
  raised x = Some f ->
  post = [] /\ fst (read_all_log_streams g (start w)) = Raise (Fault f).
Proof.
  intros E Hx.
  destruct (read_all_log_streams_run g w)
    as [(f0 & Ht & Hf) | [(f0 & Ht & Hf) | (names & xs & o & Ht & Hr & Ho)]];
    rewrite Ht in E.
  - apply singleton_split in E as (_ & -> & ->). cbn in Hx.
    injection Hx as ->. auto.
  - apply singleton_split in E as (_ & -> & _). discriminate.
  - destruct pre as [|a pre]; cbn in E.
    + injection E as <- _. discriminate.
    + injection E as _ E.
      destruct (reads_faulted g names [] xs o Hr pre x post f E Hx)
        as [-> ->].
      rewrite Ho. auto.
Qed.

End LogsMore.


Lemma read_all_log_streams_fails_fast_witness :
  @nil exchange = []
  /\ fst (Canned.read_all_log_streams "publish-to-social-reports"
            (start Canned.broken_stream))
     = Raise (Fault (OtherError "EndpointConnectionError")).
Proof.
  apply (@read_all_log_streams_fails_fast Canned.World Canned.boto3
           "publish-to-social-reports" Canned.broken_stream
           [listing "publish-to-social-reports" None;
            read "publish-to-social-reports" "twitter" None]
           []
           (read "publish-to-social-reports" "mastodon"
              (Some (OtherError "EndpointConnectionError")))
           (OtherError "EndpointConnectionError")).
  - reflexivity.
  - reflexivity.
Defined.

(** ** The Pagespeed report *)

(** The marking loop as a map: the items keep their number and order, an
    item out of range gets [error = True], and [errors] is raised exactly
    when there is such an item. *)
Lemma mark_errors_marks (items : list dict) :
  mark_errors items = (map marked items, existsb out_of_range items).
Proof.
  induction items as [|item rest IH]; [reflexivity|].
  cbn [mark_errors map existsb]. rewrite IH.
  unfold marked, out_of_range.
  destruct (dict_get "latest_score_value" item) as [[|b|z|score|t|l|d]|];
    try reflexivity.
  destruct (score_in_range score); reflexivity.
Qed.

Lemma marked_in_range (items : list dict) :
  existsb out_of_range items = false -> map marked items = items.
Proof.
  induction items as [|item rest IH]; [reflexivity|].
  cbn [existsb map]. intros H. apply orb_false_iff in H as [Hi Hr].
  rewrite (IH Hr). unfold marked. now rewrite Hi.
Qed.

Section PagespeedMore.
Context {World : Type} {B : Boto3 World} {P : Python}.



(** X18.  On the scan of the table named by PAGESPEED_TABLE: a Count equal
    to zero is a Structured Failure of status 500, whatever the items; with
    another Count and items that are all converted, the handler returns the
    report when every score is in (0.99, 1], and otherwise raises a
    Structured Failure of status 400 whose message is the whole report with
    the items out of range marked. *)
Theorem pagespeed_report_outcomes (environ : list (string * string))
    (event : LambdaEvent) (s : state World) (table : string) (data : dict)
    (w' : World) (count : value) :
  env_get "PAGESPEED_TABLE" environ = Ok table ->
  scan table (world s) = (Ok data, w') ->
  dict_get "Count" data = Some count ->
  (eq_zero count = true ->
   fst (pagespeed_report environ event s)
   = Raise (HandledError (VStr "Unexpected DynamoDB response: empty table")
                         (Some 500)))
  /\ (forall rows items,
        eq_zero count = false ->
        dict_get "Items" data = Some (VList rows) ->
        report_items rows = Ok items ->
        fst (pagespeed_report environ event s)
        = if existsb out_of_range items then
            Raise (HandledError (VList (map VDict (map marked items)))
                                (Some 400))
          else Return (VList (map VDict items))).
Proof.
  intros Henv Hscan Hcount.
  split; [intros Hz | intros rows items Hz Hitems Hrep];
    unfold pagespeed_report, scan_dynamodb_table;
    rewrite bind_lift, Henv;
    unfold bind at 1; unfold perform; rewrite Hscan; cbn [outcome_of];
    rewrite bind_lift; unfold getitem at 1; rewrite Hcount, Hz.
  - reflexivity.
  - rewrite bind_lift. unfold getitem. rewrite Hitems.
    rewrite bind_lift, Hrep, mark_errors_marks.
    destruct (existsb out_of_range items) eqn:Hany; [reflexivity|].
    now rewrite (marked_in_range items Hany).
Qed.

End PagespeedMore.


Lemma pagespeed_report_outcomes_witness :
  fst (Canned.pagespeed_report Canned.environ
         {| verb := "GET"; path := "/pagespeed_report"; body := None |}
         (start Canned.two_pages))
  = Raise (HandledError
             (VList [VDict [("url", VStr "https://a.l3x.in/");
                            ("latest_score_value", VFloat 1%float);
                            ("latest_score_timestamp", VStr "2020-11-04")];
                     VDict [("url", VStr "https://a.l3x.in/slow");
                            ("latest_score_value", VFloat 0.5%float);
                            ("latest_score_timestamp", VStr "2020-11-04");
                            ("error", VBool true)]])
             (Some 400)).
Proof.
  apply (proj2 (@pagespeed_report_outcomes Canned.World Canned.boto3
                  Double.python Canned.environ
                  {| verb := "GET"; path := "/pagespeed_report";
                     body := None |}
                  (start Canned.two_pages) "pagespeed"
                  [("Count", VInt 2);
                   ("Items",
                    VList [Canned.row "https://a.l3x.in/" "1" "2020-11-04";
                           Canned.row "https://a.l3x.in/slow" "0.5"
                             "2020-11-04"])]
                  Canned.two_pages (VInt 2) eq_refl eq_refl eq_refl)
           [Canned.row "https://a.l3x.in/" "1" "2020-11-04";
            Canned.row "https://a.l3x.in/slow" "0.5" "2020-11-04"]
           [[("url", VStr "https://a.l3x.in/");
             ("latest_score_value", VFloat 1%float);
             ("latest_score_timestamp", VStr "2020-11-04")];
            [("url", VStr "https://a.l3x.in/slow");
             ("latest_score_value", VFloat 0.5%float);
             ("latest_score_timestamp", VStr "2020-11-04")]]);
    reflexivity.
Defined.

(** ** The names listed in LAMBDA_FUNCTIONS *)

Lemma remove_spaces_no_space (s : string) :
  has_char " "%char (remove_spaces s) = false.
Proof.
  induction s as [|c s IH]; [reflexivity|].
  cbn [remove_spaces]. unfold is_space.
  destruct (Ascii.eqb c " "%char) eqn:Hc; [exact IH|].
  cbn. now rewrite Hc.
Qed.

Lemma remove_spaces_fixed (s : string) :
  has_char " "%char s = false -> remove_spaces s = s.
Proof.
  induction s as [|c s IH]; [reflexivity|]. cbn. intros H.
  apply orb_false_iff in H as [Hc Hs]. unfold is_space.
  now rewrite Hc, (IH Hs).
Qed.

Lemma remove_spaces_app (a b : string) :
  remove_spaces (a ++ b) = remove_spaces a ++ remove_spaces b.
Proof.
  induction a as [|c a IH]; [reflexivity|]. cbn.
  destruct (is_space c); [exact IH | cbn; now rewrite IH].
Qed.

Lemma split_keeps_absence (a sep : ascii) (s : string) :
  has_char a s = false ->
  Forall (fun seg => has_char a seg = false) (split sep s).
Proof.
  induction s as [|c s IH]; cbn; intros H.
  - repeat constructor.
  - apply orb_false_iff in H as [Hc Hs]. specialize (IH Hs).
    destruct (Ascii.eqb c sep).
    + constructor; [reflexivity | exact IH].
    + destruct (split sep s) as [|h t]; inversion IH; subst;
        constructor; cbn; try rewrite Hc; auto.
Qed.

Lemma split_segments_no_sep (sep : ascii) (s : string) :
  Forall (fun seg => has_char sep seg = false) (split sep s).
Proof.
  induction s as [|c s IH]; cbn.
  - repeat constructor.
  - destruct (Ascii.eqb c sep) eqn:Hc.
    + constructor; [reflexivity | exact IH].
    + destruct (split sep s) as [|h t].
      * repeat constructor. cbn. now rewrite Hc.
      * inversion IH; subst. constructor; [|assumption].
        cbn. rewrite Hc. assumption.
Qed.

Lemma split_whole (sep : ascii) (s : string) :
  has_char sep s = false -> split sep s = [s].
Proof.
  induction s as [|c s IH]; cbn; intros H; [reflexivity|].
  apply orb_false_iff in H as [Hc Hs]. now rewrite Hc, (IH Hs).
Qed.

Lemma split_app_sep (sep : ascii) (a b : string) :
  has_char sep a = false ->
  split sep (a ++ String sep b) = a :: split sep b.
Proof.
  induction a as [|c a IH]; cbn; intros H.
  - now rewrite Ascii.eqb_refl.
  - apply orb_false_iff in H as [Hc Ha]. now rewrite Hc, (IH Ha).
Qed.

Lemma clean_name_parts (name : string) :
  clean_name name = true ->
  nonempty name = true
  /\ has_char " "%char name = false
  /\ has_char ","%char name = false.
Proof.
  unfold clean_name. intros H.
  apply andb_true_iff in H as [H Hc]. apply andb_true_iff in H as [Hn Hs].
  now rewrite negb_true_iff in Hs, Hc.
Qed.

Lemma filter_nonempty_clean (names : list string) :
  Forall (fun name => clean_name name = true) names ->
  filter nonempty names = names.
Proof.
  induction 1 as [|name names Hn _ IH]; [reflexivity|].
  cbn. apply clean_name_parts in Hn as (-> & _ & _). now rewrite IH.
Qed.

Lemma concat_cons (sep x y : string) (l : list string) :
  String.concat sep (x :: y :: l) = x ++ sep ++ String.concat sep (y :: l).
Proof. reflexivity. Qed.

Lemma remove_spaces_listing (names : list string) :
  Forall (fun name => clean_name name = true) names ->
  remove_spaces (String.concat ", " names) = String.concat "," names.
Proof.
  induction 1 as [|name names Hn Hrest IH]; [reflexivity|].
  apply clean_name_parts in Hn as (_ & Hs & _).
  destruct names as [|next names].
  - now apply remove_spaces_fixed.
  - rewrite !concat_cons, !remove_spaces_app, IH.
    now rewrite (remove_spaces_fixed name Hs).
Qed.

Lemma split_listing (name : string) (names : list string) :
  Forall (fun n => clean_name n = true) (name :: names) ->
  split ","%char (String.concat "," (name :: names)) = name :: names.
Proof.
  revert name. induction names as [|next names IH]; intros name H;
    inversion H as [|? ? Hn Hrest]; subst;
    apply clean_name_parts in Hn as (_ & _ & Hc).
  - now apply split_whole.
  - rewrite concat_cons.
    change (name ++ "," ++ String.concat "," (next :: names))
      with (name ++ String ","%char (String.concat "," (next :: names))).
    rewrite (split_app_sep _ _ _ Hc). now rewrite (IH next Hrest).
Qed.

Section SocialLambdas.
Variable lower : string -> string.

(** X19.  Whatever LAMBDA_FUNCTIONS holds, every name of [social_lambdas]
    is the lower case of a name that is not empty and has neither a space
    nor a comma; without the variable there is no name at all. *)
Theorem social_lambdas_clean (environ : list (string * string)) :
  (exists names,
     social_lambdas lower environ = map lower names
     /\ Forall (fun name => clean_name name = true) names)
  /\ (forall f,
        env_get "LAMBDA_FUNCTIONS" environ = Error f ->
        social_lambdas lower environ = []).
Proof.
  split.
  - unfold social_lambdas. eexists. split; [reflexivity|].
    set (text := remove_spaces (env_get_or_empty "LAMBDA_FUNCTIONS" environ)).
    assert (Hs : Forall (fun seg => has_char " "%char seg = false)
                   (split ","%char text))
      by apply split_keeps_absence, remove_spaces_no_space.
    assert (Hc := split_segments_no_sep ","%char text).
    apply Forall_forall. intros name Hin.
    apply filter_In in Hin as [Hin Hne].
    rewrite Forall_forall in Hs, Hc.
    unfold clean_name. now rewrite Hne, (Hs name Hin), (Hc name Hin).
  - intros f E. unfold social_lambdas, env_get_or_empty. now rewrite E.
Qed.

(** X20.  The listing round-trips: when LAMBDA_FUNCTIONS holds names that
    are not empty and have neither space nor comma, separated by a comma
    and a space, [social_lambdas] is the list of these names, in order,
    each in lower case. *)
Theorem social_lambdas_listing (environ : list (string * string))
    (names : list string) :
  Forall (fun name => clean_name name = true) names ->
  env_get "LAMBDA_FUNCTIONS" environ = Ok (String.concat ", " names) ->
  social_lambdas lower environ = map lower names.
Proof.
  intros Hnames E. unfold social_lambdas, env_get_or_empty. rewrite E.
  rewrite (remove_spaces_listing names Hnames). f_equal.
  destruct names as [|name names]; [reflexivity|].
  rewrite (split_listing name names Hnames).
  now apply filter_nonempty_clean.
Qed.

End SocialLambdas.

Lemma social_lambdas_clean_witness :
  social_lambdas ascii_lower Canned.environ
  = ["twitter"; "mastodon"; "linkedin"]
  /\ social_lambdas ascii_lower [] = [].
Proof.
  split; [reflexivity|].
  apply (proj2 (social_lambdas_clean ascii_lower []) (KeyError "LAMBDA_FUNCTIONS")).
  reflexivity.
Defined.

Lemma social_lambdas_listing_witness :
  social_lambdas ascii_lower [("LAMBDA_FUNCTIONS", "Twitter, Mastodon")]
  = map ascii_lower ["Twitter"; "Mastodon"].
Proof.
  apply (social_lambdas_listing ascii_lower
           [("LAMBDA_FUNCTIONS", "Twitter, Mastodon")]
           ["Twitter"; "Mastodon"]).
  - repeat constructor.
  - reflexivity.
Defined.

(** ** The tokens the writer sends *)

Lemma attempts_tokens g st ev tok n xs o :
  attempts g st ev tok n xs o ->
  (tok = None \/ exists msg, tok = Some (token_of_message msg)) ->
  Forall
    (fun x =>
       forall t,
         sequence_token_of (request x) = Some t ->
         t <> EmptyString /\ clean_token t = true)
    xs.
Proof.
  assert (Hone : forall tok' f,
             (tok' = None \/ exists msg, tok' = Some (token_of_message msg)) ->
             forall t,
               sequence_token_of (request (attempt g st ev tok' f)) = Some t ->
               t <> EmptyString /\ clean_token t = true).
  { intros tok' f [-> | [msg ->]] t; cbn [attempt request sequence_token_of].
    - discriminate.
    - rewrite token_argument_Some.
      destruct (String.eqb_spec (token_of_message msg) EmptyString) as [|Hne];
        [discriminate|].
      intros [= <-]. split; [exact Hne | apply token_of_message_is_clean]. }
  induction 1 as [tok|tok n|tok n c m t xs o Hc Ha IH|tok c m t Hc
                 |tok n c m t Hc|tok n f Hf];
    intros Htok.
  - constructor.
  - constructor; [now apply Hone | constructor].
  - constructor; [now apply Hone | apply IH; right; now exists m].
  - constructor; [now apply Hone | constructor].
  - constructor; [now apply Hone | constructor].
  - constructor; [now apply Hone | constructor].
Qed.

Section WriterTokens.
Context {World : Type} {B : Boto3 World} {P : Python}.

(** X16.  A sequence token that the writer sends is never empty, has no
    colon and has no space at either end, whatever the service answers. *)
Theorem writer_tokens_sent (g st : string) (message : dict) (w : World) :
  Forall
    (fun x =>
       forall t,
         sequence_token_of (request x) = Some t ->
         t <> EmptyString /\ clean_token t = true)
    (trace (snd (send_event_to_logstream g st message (start w)))).
Proof.
  destruct (dict_truthy message) eqn:Hm.
  - destruct (send_event_attempts g st message w Hm) as (ms & _ & Ha).
    apply (attempts_tokens _ _ _ _ _ _ _ Ha). now left.
  - rewrite (send_event_trace_nil g st message w Hm). constructor.
Qed.

End WriterTokens.

Lemma writer_tokens_sent_witness :
  "t1" <> EmptyString /\ clean_token "t1" = true.
Proof.
  assert (H := @writer_tokens_sent Double.World Double.boto3 Double.python
                 "reports" "twitter" WriterRuns.note
                 WriterRuns.four_conflicts).
  rewrite Forall_forall in H.
  apply (H (attempt "reports" "twitter" WriterRuns.record (Some "t1")
              (raised_of (WriterRuns.invalid_token "t2")))).
  - vm_compute. right. left. reflexivity.
  - reflexivity.
Defined.
